(** * EduMate backend: the response sanitizer

    A shallow embedding of [backend/main.py]:
    - [clean_json_response]  (lines 105-114),
    - [validate_study_data]  (lines 117-163),
    - the prompt template [STUDY_GENERATION_PROMPT] (lines 68-102),
    and the properties of them that the specification states.

    The request handler [generate_study_material] (lines 182-251) is not
    embedded: its lines 206-223 stand at column 0 while the [try] opened at
    line 193 has neither [except] nor [finally] yet, so the file as it is
    does not compile and the handler has no behaviour to embed.

    Python values are modelled as follows.
    - A [str] is the list of its Unicode code points ([pystr]).
    - The value returned by [json.loads] is a tree ([json]); a [dict] is an
      association list in insertion order with pairwise distinct keys.
    - A function that may raise returns a [result]: [OK v] or [Raise e]. *)

From Stdlib Require Import Ascii String DecimalString SpecFloat.
From Stdlib Require Import NArith ZArith Bool List Lia.
Import ListNotations.

Set Warnings "-register-all".

(* ================================================================== *)
(** * Python strings *)
(* ================================================================== *)

Definition pystr := list N.

(** An ASCII literal as a Python [str]. *)
Definition py (s : string) : pystr :=
  map N_of_ascii (list_ascii_of_string s).

Definition dquote : pystr := [34%N].
Definition newline : pystr := [10%N].
Definition backtick : N := 96%N.

Open Scope N_scope.

(** [str.isspace] on one code point, which is also what [\s] matches in a
    [str] pattern: the ASCII table of CPython ([\t\n\v\f\r], 0x1c-0x1f and the
    space) and the Unicode white space characters. *)
Definition isspace (c : N) : bool :=
  ((0x09 <=? c) && (c <=? 0x0D)) || ((0x1C <=? c) && (c <=? 0x20))
  || (c =? 0x85) || (c =? 0xA0) || (c =? 0x1680)
  || ((0x2000 <=? c) && (c <=? 0x200A))
  || (c =? 0x2028) || (c =? 0x2029) || (c =? 0x202F) || (c =? 0x205F)
  || (c =? 0x3000).

Close Scope N_scope.

Fixpoint drop_while (p : N -> bool) (s : pystr) : pystr :=
  match s with
  | [] => []
  | c :: s' => if p c then drop_while p s' else s
  end.

Definition lstrip (s : pystr) : pystr := drop_while isspace s.
Definition rstrip (s : pystr) : pystr := rev (drop_while isspace (rev s)).

(** [s.strip()] *)
Definition strip (s : pystr) : pystr := rstrip (lstrip s).

(** [s] starts with [p]; the rest of [s] when it does. *)
Fixpoint strip_prefix (p s : pystr) : option pystr :=
  match p, s with
  | [], _ => Some s
  | _ :: _, [] => None
  | a :: p', c :: s' => if N.eqb a c then strip_prefix p' s' else None
  end.

Definition startswith (p s : pystr) : bool :=
  match strip_prefix p s with Some _ => true | None => false end.

(** [p in s] for strings. *)
Fixpoint contains (p s : pystr) : bool :=
  startswith p s ||
  match s with
  | [] => false
  | _ :: s' => contains p s'
  end.

(* ================================================================== *)
(** * clean_json_response *)
(* ================================================================== *)

(** One attempt of the pattern [lit\s*] at the head of [s]: the literal, then
    as much white space as there is (the star is greedy and nothing follows it
    in the pattern, so there is no backtracking). *)
Definition fence_match (lit s : pystr) : option pystr :=
  match strip_prefix lit s with
  | Some rest => Some (lstrip rest)
  | None => None
  end.

(** [re.sub(lit + r'\s*', '', s)] for a non-empty literal [lit]: scan from the
    left; where the pattern matches, delete the match and go on after it;
    elsewhere keep the character.  Every round of the loop consumes at least
    one character, so [S (length s)] rounds are enough ([sub_loop_fuel]). *)
Fixpoint sub_loop (fuel : nat) (lit s : pystr) : pystr :=
  match fuel with
  | O => s
  | S fuel' =>
      match fence_match lit s with
      | Some rest => sub_loop fuel' lit rest
      | None =>
          match s with
          | [] => []
          | c :: s' => c :: sub_loop fuel' lit s'
          end
      end
  end.

Definition re_sub (lit s : pystr) : pystr := sub_loop (S (length s)) lit s.

Definition fence : pystr := [backtick; backtick; backtick].
Definition fence_json : pystr := fence ++ py "json".

Definition clean_json_response (response_text : pystr) : pystr :=
  let response_text := re_sub fence_json response_text in
  let response_text := re_sub fence response_text in
  let response_text := strip response_text in
  response_text.

(* ================================================================== *)
(** * Python values and exceptions *)
(* ================================================================== *)

(** What [json.loads] returns.  Integers are unbounded; a [float] is an IEEE
    value; a [dict] keeps its keys in insertion order. *)
Inductive json : Type :=
| JNull
| JBool (b : bool)
| JInt (z : Z)
| JFloat (f : spec_float)
| JStr (s : pystr)
| JList (l : list json)
| JDict (d : list (pystr * json)).

Inductive exn : Type :=
| AttributeError (msg : pystr)
| TypeError (msg : pystr)
| JSONDecodeError (msg : pystr)
| OtherError (msg : pystr).

(** [str(e)] *)
Definition exn_str (e : exn) : pystr :=
  match e with
  | AttributeError msg | TypeError msg | JSONDecodeError msg
  | OtherError msg => msg
  end.

Inductive result (A : Type) : Type :=
| OK (a : A)
| Raise (e : exn).
Arguments OK {A} a.
Arguments Raise {A} e.

Definition bind {A B : Type} (r : result A) (k : A -> result B) : result B :=
  match r with
  | OK a => k a
  | Raise e => Raise e
  end.

Notation "x <- r ;; k" := (bind r (fun x => k))
  (at level 61, r at next level, right associativity).

(** [type(v).__name__] *)
Definition type_name (v : json) : pystr :=
  match v with
  | JNull => py "NoneType"
  | JBool _ => py "bool"
  | JInt _ => py "int"
  | JFloat _ => py "float"
  | JStr _ => py "str"
  | JList _ => py "list"
  | JDict _ => py "dict"
  end.

Definition no_attribute (v : json) (attr : string) : exn :=
  AttributeError
    (py "'" ++ type_name v ++ py "' object has no attribute '" ++ py attr
     ++ py "'").

Definition pystr_eqb (a b : pystr) : bool :=
  if list_eq_dec N.eq_dec a b then true else false.

(** [d.get(key)] on a [dict] *)
Fixpoint dict_get (key : pystr) (d : list (pystr * json)) : option json :=
  match d with
  | [] => None
  | (k, v) :: d' => if pystr_eqb k key then Some v else dict_get key d'
  end.

(** [d.get(key, default)] on a [dict] *)
Definition dict_get_or (key : string) (default : json)
    (d : list (pystr * json)) : json :=
  match dict_get (py key) d with
  | Some v => v
  | None => default
  end.

(** [v.get(key, default)] on any value: only a [dict] has the method. *)
Definition py_get (v : json) (key : string) (default : json) : result json :=
  match v with
  | JDict d => OK (dict_get_or key default d)
  | _ => Raise (no_attribute v "get")
  end.

(** [len(v)] *)
Definition py_len (v : json) : result nat :=
  match v with
  | JStr s => OK (length s)
  | JList l => OK (length l)
  | JDict d => OK (length d)
  | _ => Raise (TypeError
                  (py "object of type '" ++ type_name v ++ py "' has no len()"))
  end.

(** [v.append(x)]; the value of [v] afterwards. *)
Definition py_append (v x : json) : result json :=
  match v with
  | JList l => OK (JList (l ++ [x]))
  | _ => Raise (no_attribute v "append")
  end.

(** [v[:n]]; a [dict] takes the slice for a key (unhashable up to Python
    3.11, a missing key from 3.12 on: an exception either way). *)
Definition py_slice_to (n : nat) (v : json) : result json :=
  match v with
  | JList l => OK (JList (firstn n l))
  | JStr s => OK (JStr (firstn n s))
  | JDict _ => Raise (TypeError (py "unhashable type: 'slice'"))
  | _ => Raise (TypeError
                  (py "'" ++ type_name v ++ py "' object is not subscriptable"))
  end.

(** The elements that [for x in v] goes through: the items of a [list], the
    characters of a [str], the keys of a [dict]. *)
Definition py_iter (v : json) : result (list json) :=
  match v with
  | JList l => OK l
  | JStr s => OK (map (fun c => JStr [c]) s)
  | JDict d => OK (map (fun kv => JStr (fst kv)) d)
  | _ => Raise (TypeError
                  (py "'" ++ type_name v ++ py "' object is not iterable"))
  end.

(** [bool(v)] *)
Definition truthy (v : json) : bool :=
  match v with
  | JNull => false
  | JBool b => b
  | JInt z => negb (Z.eqb z 0)
  | JFloat (S754_zero _) => false
  | JFloat _ => true
  | JStr s => negb (Nat.eqb (length s) 0)
  | JList l => negb (Nat.eqb (length l) 0)
  | JDict d => negb (Nat.eqb (length d) 0)
  end.

(** [isinstance(v, list)]; [isinstance(v, dict)] is a match on [JDict]. *)
Definition is_list (v : json) : bool :=
  match v with JList _ => true | _ => false end.

(** The parts of the Python runtime that are tables of the interpreter: the
    upper-case mapping of the code points outside ASCII, the shortest
    representation of a [float] and the quoting of [repr] on a [str]. *)
Class PyRuntime : Type := {
  unicode_upper : N -> list N;
  float_repr : spec_float -> pystr;
  str_repr : pystr -> pystr
}.

(** [str(z)] for an [int] *)
Definition int_str (z : Z) : pystr :=
  py (NilEmpty.string_of_int (Z.to_int z)).

Fixpoint join (sep : pystr) (l : list pystr) : pystr :=
  match l with
  | [] => []
  | [x] => x
  | x :: l' => x ++ sep ++ join sep l'
  end.

Section Runtime.
Context {rt : PyRuntime}.

(** [repr(v)] *)
Fixpoint py_repr (v : json) : pystr :=
  match v with
  | JNull => py "None"
  | JBool true => py "True"
  | JBool false => py "False"
  | JInt z => int_str z
  | JFloat f => float_repr f
  | JStr s => str_repr s
  | JList l => py "[" ++ join (py ", ") (map py_repr l) ++ py "]"
  | JDict d =>
      py "{"
      ++ join (py ", ")
           (map (fun kv => str_repr (fst kv) ++ py ": " ++ py_repr (snd kv)) d)
      ++ py "}"
  end.

(** [str(v)] *)
Definition py_str (v : json) : pystr :=
  match v with
  | JStr s => s
  | _ => py_repr v
  end.

(** The upper-case mapping of one code point (it may be several code
    points long outside ASCII). *)
Definition to_upper (c : N) : list N :=
  if (c <? 128)%N
  then [if ((97 <=? c) && (c <=? 122))%N then (c - 32)%N else c]
  else unicode_upper c.

(** [s.upper()] *)
Definition str_upper (s : pystr) : pystr := flat_map to_upper s.

End Runtime.

(* ================================================================== *)
(** * The schema (the pydantic models) *)
(* ================================================================== *)

Record MCQ : Type := {
  question : pystr;
  options : list pystr;
  answer : pystr
}.

Record Flashcard : Type := {
  front : pystr;
  back : pystr
}.

Record StudyData : Type := {
  notes : list pystr;
  mcqs : list MCQ;
  flashcards : list Flashcard
}.

Record GenerationRequest : Type := {
  topic : pystr
}.

Record GenerationResponse : Type := {
  success : bool;
  data : option StudyData;
  error : option pystr
}.

(* ================================================================== *)
(** * validate_study_data *)
(* ================================================================== *)

(** [f"{chr(65 + len(options))}) Option {len(options) + 1}"] where [n] is
    [len(options)]. *)
Definition placeholder (n : nat) : pystr :=
  [N.of_nat (65 + n)] ++ py ") Option " ++ int_str (Z.of_nat (n + 1)).

(** [while len(options) < 4: options.append(...)].  The value of [options]
    when the loop is left; five rounds are enough for the loop to be left by
    its test ([pad_while_exit]).  [append] changes the list that the mapping
    holds; the function reads that list once and [json.loads] shares no list
    between two items, so only the value is followed here. *)
Fixpoint pad_while (fuel : nat) (options : json) : result json :=
  match fuel with
  | O => OK options
  | S fuel' =>
      n <- py_len options ;;
      if n <? 4
      then options <- py_append options (JStr (placeholder n)) ;;
           pad_while fuel' options
      else OK options
  end.

(** Lines 134-138: the repair of [options]. *)
Definition fix_options (options : json) : result json :=
  n <- py_len options ;;
  if negb (n =? 4)
  then options <- pad_while 5 options ;;
       py_slice_to 4 options
  else OK options.

Section Sanitizer.
Context {rt : PyRuntime}.

(** Lines 133-144: the body of the loop over [mcqs], for an item that is a
    [dict]. *)
Definition validate_mcq (mcq : list (pystr * json)) : result MCQ :=
  let options := dict_get_or "options" (JList []) mcq in
  options <- fix_options options ;;
  let question := py_str (dict_get_or "question" (JStr (py "Question")) mcq) in
  opts <- py_iter options ;;
  let answer := str_upper (py_str (dict_get_or "answer" (JStr (py "A")) mcq)) in
  OK {| question := question; options := map py_str opts; answer := answer |}.

(** Lines 131-144: [for mcq in mcqs[:5]] with the list built so far. *)
Fixpoint mcq_loop (items : list json) (validated_mcqs : list MCQ)
  : result (list MCQ) :=
  match items with
  | [] => OK validated_mcqs
  | JDict mcq :: items' =>
      m <- validate_mcq mcq ;;
      mcq_loop items' (validated_mcqs ++ [m])
  | _ :: items' => mcq_loop items' validated_mcqs
  end.

(** Lines 154-157 *)
Definition validate_flashcard (card : list (pystr * json)) : Flashcard :=
  {| front := py_str (dict_get_or "front" (JStr (py "Question")) card);
     back := py_str (dict_get_or "back" (JStr (py "Answer")) card) |}.

(** Lines 152-157: [for card in flashcards[:3]]. *)
Fixpoint card_loop (items : list json) (validated_flashcards : list Flashcard)
  : list Flashcard :=
  match items with
  | [] => validated_flashcards
  | JDict card :: items' =>
      card_loop items' (validated_flashcards ++ [validate_flashcard card])
  | _ :: items' => card_loop items' validated_flashcards
  end.

(** Lines 117-163.  The last step builds the pydantic models from strings
    and lists of strings only, which their validation accepts. *)
Definition validate_study_data (data : json) : result StudyData :=
  notes <- py_get data "notes" (JList []) ;;
  let notes := if is_list notes then notes else JList [JStr (py_str notes)] in
  let notes :=
    match notes with
    | JList l => map py_str (filter truthy l)
    | _ => []
    end in
  mcqs <- py_get data "mcqs" (JList []) ;;
  let mcqs := match mcqs with JList l => l | _ => [] end in
  validated_mcqs <- mcq_loop (firstn 5 mcqs) [] ;;
  flashcards <- py_get data "flashcards" (JList []) ;;
  let flashcards := match flashcards with JList l => l | _ => [] end in
  let validated_flashcards := card_loop (firstn 3 flashcards) [] in
  OK {| notes := notes; mcqs := validated_mcqs;
        flashcards := validated_flashcards |}.

End Sanitizer.

(* ================================================================== *)
(** * The prompt *)
(* ================================================================== *)

Definition quoted (s : string) : pystr := dquote ++ py s ++ dquote.

(** [STUDY_GENERATION_PROMPT], line by line, up to the placeholder. *)
Definition prompt_head_lines : list pystr :=
  [ py "You are EduMate AI, an expert educational content creator. Your task is to generate comprehensive study materials for the given topic.";
    [];
    py "TOPIC: " ].

(** [STUDY_GENERATION_PROMPT], line by line, after the placeholder. *)
Definition prompt_tail_lines : list pystr :=
  [ [];
    [];
    py "Generate study materials in the following STRICT JSON format:";
    [];
    py "{";
    py "  " ++ quoted "notes" ++ py ": [";
    py "    " ++ quoted "Clear, concise bullet point summarizing a key concept" ++ py ",";
    py "    " ++ quoted "Another important point about the topic" ++ py ",";
    py "    " ++ quoted "Continue with 5-7 bullet points total";
    py "  ],";
    py "  " ++ quoted "mcqs" ++ py ": [";
    py "    {";
    py "      " ++ quoted "question" ++ py ": " ++ quoted "What is the main concept of...?" ++ py ",";
    py "      " ++ quoted "options" ++ py ": [" ++ quoted "A) First option" ++ py ", " ++ quoted "B) Second option" ++ py ", " ++ quoted "C) Third option" ++ py ", " ++ quoted "D) Fourth option" ++ py "],";
    py "      " ++ quoted "answer" ++ py ": " ++ quoted "A";
    py "    }";
    py "  ],";
    py "  " ++ quoted "flashcards" ++ py ": [";
    py "    {";
    py "      " ++ quoted "front" ++ py ": " ++ quoted "Key term or question" ++ py ",";
    py "      " ++ quoted "back" ++ py ": " ++ quoted "Clear explanation or definition";
    py "    }";
    py "  ]";
    py "}";
    [];
    py "REQUIREMENTS:";
    py "1. NOTES: Generate 5-7 bullet points that clearly explain the topic. Use simple, student-friendly language.";
    py "2. MCQs: Generate EXACTLY 5 multiple-choice questions. Each must have 4 options (A, B, C, D) with one correct answer.";
    py "3. FLASHCARDS: Generate EXACTLY 3 flashcards with question/term on front and explanation on back.";
    py "4. All content must be accurate, educational, and appropriate for high school or early college level.";
    py "5. Return ONLY valid JSON. No markdown formatting, no code blocks, no additional text.";
    [];
    py "Ensure the JSON is properly formatted with double quotes and valid syntax." ].

(** [STUDY_GENERATION_PROMPT.format(topic=topic)] *)
Definition STUDY_GENERATION_PROMPT_format (topic : pystr) : pystr :=
  join newline prompt_head_lines ++ topic ++ join newline prompt_tail_lines.


(* ================================================================== *)
(** * The vocabulary of the properties *)
(* ================================================================== *)

(** The number of backticks that [s] begins with. *)
Fixpoint ticks (s : pystr) : nat :=
  match s with
  | [] => 0
  | c :: s' => if N.eqb c backtick then S (ticks s') else 0
  end.

(** Only white space; no backtick. *)
Definition all_space (s : pystr) : bool := forallb isspace s.
Definition no_tick (s : pystr) : bool :=
  forallb (fun c => negb (N.eqb c backtick)) s.

(** The placeholders that the padding loop appends to [n] options. *)
Definition pads (n : nat) : list json :=
  map (fun i => JStr (placeholder i)) (seq n (4 - n)).

(** The items of the field [key] when it holds a list, no items otherwise
    (lines 126-128 and 147-149). *)
Definition list_field (key : string) (d : list (pystr * json)) : list json :=
  match dict_get_or key (JList []) d with
  | JList l => l
  | _ => []
  end.

(** The item is not a [dict], or its [options] are a list (or absent). *)
Definition options_is_list (item : json) : bool :=
  match item with
  | JDict mcq => is_list (dict_get_or "options" (JList []) mcq)
  | _ => true
  end.

Definition is_ascii_upper (c : N) : bool := ((65 <=? c) && (c <=? 90))%N.
Definition is_ascii_lower (c : N) : bool := ((97 <=? c) && (c <=? 122))%N.

(** One code point that is an upper-case ASCII letter or lies outside
    ASCII (whether such a code point is an upper-case letter is for the
    Unicode tables to say; the reading is the most generous one). *)
Definition single_uppercase_letter (a : pystr) : bool :=
  match a with
  | [c] => is_ascii_upper c || (128 <=? c)%N
  | _ => false
  end.

(** The mapping [mcq] holds the fields of [m], all of them strings. *)
Definition mcq_fields (mcq : list (pystr * json)) (m : MCQ) : Prop :=
  dict_get (py "question") mcq = Some (JStr (question m))
  /\ dict_get (py "options") mcq = Some (JList (map JStr (options m)))
  /\ dict_get (py "answer") mcq = Some (JStr (answer m)).

(** The mapping [card] holds the fields of [c], both of them strings. *)
Definition card_fields (card : list (pystr * json)) (c : Flashcard) : Prop :=
  dict_get (py "front") card = Some (JStr (front c))
  /\ dict_get (py "back") card = Some (JStr (back c)).

Section Vocabulary.
Context {rt : PyRuntime}.

(** Lines 120-123 on a [dict]. *)
Definition note_list (d : list (pystr * json)) : list pystr :=
  match dict_get_or "notes" (JList []) d with
  | JList l => map py_str (filter truthy l)
  | v => map py_str (filter truthy [JStr (py_str v)])
  end.

(** Every character of [a] is its own upper-case form. *)
Definition is_uppercase (a : pystr) : Prop :=
  Forall (fun c => to_upper c = [c]) a.

End Vocabulary.

(** A runtime to run the functions on ASCII data: no mapping outside ASCII,
    one text for every [float], single quotes around a [str]. *)
Definition ascii_runtime : PyRuntime :=
  {| unicode_upper := fun c => [c];
     float_repr := fun _ => py "0.0";
     str_repr := fun s => py "'" ++ s ++ py "'" |}.

(* ================================================================== *)
(** * Further vocabulary *)
(* ================================================================== *)

(** [a] is [b] with some characters deleted. *)
Inductive subseq : pystr -> pystr -> Prop :=
| subseq_nil : subseq [] []
| subseq_skip (a : pystr) (c : N) (b : pystr) :
    subseq a b -> subseq a (c :: b)
| subseq_keep (a : pystr) (c : N) (b : pystr) :
    subseq a b -> subseq (c :: a) (c :: b).

(** [s] is empty or begins with a character that is not white space. *)
Definition hd_not_space (s : pystr) : bool :=
  match s with
  | [] => true
  | c :: _ => negb (isspace c)
  end.

(** No white space at either end. *)
Definition trimmed (s : pystr) : bool :=
  hd_not_space s && hd_not_space (rev s).

(** The mappings among [items], in order. *)
Fixpoint dict_items (items : list json) : list (list (pystr * json)) :=
  match items with
  | [] => []
  | JDict d :: items' => d :: dict_items items'
  | _ :: items' => dict_items items'
  end.

(** The values of [options] that lines 133-142 get through: a list, a string
    of four characters or more, a mapping of exactly four keys. *)
Definition options_accepted (v : json) : bool :=
  match v with
  | JList _ => true
  | JStr s => 4 <=? length s
  | JDict d => length d =? 4
  | _ => false
  end.

(** The item is not a mapping, or its [options] get through. *)
Definition item_accepted (item : json) : bool :=
  match item with
  | JDict mcq => options_accepted (dict_get_or "options" (JList []) mcq)
  | _ => true
  end.

(** [AttributeError] or [TypeError]. *)
Definition is_attribute_or_type_error (e : exn) : bool :=
  match e with
  | AttributeError _ | TypeError _ => true
  | _ => false
  end.

Definition is_ascii (c : N) : bool := (c <? 128)%N.

(** The upper-case form of an ASCII character: the letters [a] to [z] become
    [A] to [Z], every other character stays. *)
Definition ascii_upper (c : N) : N :=
  if is_ascii_lower c then (c - 32)%N else c.

(** An ASCII character that is not a lower-case letter. *)
Definition is_plain (c : N) : bool := is_ascii c && negb (is_ascii_lower c).

(* ================================================================== *)
(** * Strings: prefixes, occurrences, stripping *)
(* ================================================================== *)

Lemma strip_prefix_app (p s : pystr) : strip_prefix p (p ++ s) = Some s.
Proof.
  induction p as [|a p IH]; simpl; [reflexivity|].
  now rewrite N.eqb_refl.
Qed.

Lemma strip_prefix_Some (p s r : pystr) :
  strip_prefix p s = Some r -> s = p ++ r.
Proof.
  revert s; induction p as [|a p IH]; intros s H; simpl in *.
  - now inversion H.
  - destruct s as [|c s]; [discriminate|].
    destruct (N.eqb_spec a c) as [->|]; [|discriminate].
    now rewrite (IH _ H).
Qed.

Lemma startswith_app (p s : pystr) : startswith p (p ++ s) = true.
Proof. unfold startswith. now rewrite strip_prefix_app. Qed.

Lemma startswith_true (p s : pystr) :
  startswith p s = true -> exists r, s = p ++ r.
Proof.
  unfold startswith. destruct (strip_prefix p s) as [r|] eqn:E; [|discriminate].
  intros _. exists r. now apply strip_prefix_Some.
Qed.

Lemma contains_cons (p : pystr) (c : N) (s : pystr) :
  contains p (c :: s) = startswith p (c :: s) || contains p s.
Proof. reflexivity. Qed.

Lemma contains_app_r (p a b : pystr) :
  contains p b = true -> contains p (a ++ b) = true.
Proof.
  intros H. induction a as [|c a IH]; [exact H|].
  simpl app. rewrite contains_cons, IH. apply orb_true_r.
Qed.

Lemma contains_app_l (p a b : pystr) :
  contains p a = true -> contains p (a ++ b) = true.
Proof.
  induction a as [|c a IH]; intros H.
  - destruct b as [|c b]; [exact H|].
    simpl in H. rewrite orb_false_r in H.
    apply startswith_true in H. destruct H as [r Hr].
    symmetry in Hr. apply app_eq_nil in Hr. destruct Hr as [-> _].
    reflexivity.
  - simpl app. rewrite contains_cons in *.
    apply orb_true_iff in H. destruct H as [H|H].
    + apply startswith_true in H. destruct H as [r Hr].
      change (c :: a ++ b) with ((c :: a) ++ b). rewrite Hr, <- app_assoc.
      now rewrite startswith_app.
    + rewrite (IH H). apply orb_true_r.
Qed.

Lemma drop_while_length (f : N -> bool) (s : pystr) :
  length (drop_while f s) <= length s.
Proof.
  induction s as [|c s IH]; simpl; [lia|].
  destruct (f c); simpl; lia.
Qed.

Lemma drop_while_suffix (f : N -> bool) (s : pystr) :
  exists a, s = a ++ drop_while f s.
Proof.
  induction s as [|c s [a Ha]]; simpl.
  - now exists [].
  - destruct (f c).
    + exists (c :: a). simpl. now f_equal.
    + now exists [].
Qed.

Lemma rstrip_prefix (s : pystr) : exists b, s = rstrip s ++ b.
Proof.
  unfold rstrip. destruct (drop_while_suffix isspace (rev s)) as [a Ha].
  exists (rev a). rewrite <- rev_app_distr, <- Ha. now rewrite rev_involutive.
Qed.

(** Stripping only removes characters at the two ends, so it creates no
    occurrence of a pattern. *)
Lemma contains_strip (p s : pystr) :
  contains p s = false -> contains p (strip s) = false.
Proof.
  intros H. unfold strip.
  destruct (contains p (rstrip (lstrip s))) eqn:E; [|reflexivity].
  destruct (rstrip_prefix (lstrip s)) as [b Hb].
  destruct (drop_while_suffix isspace s) as [a Ha]. fold (lstrip s) in Ha.
  apply (contains_app_l _ _ b) in E. rewrite <- Hb in E.
  apply (contains_app_r _ a) in E. rewrite <- Ha in E. congruence.
Qed.

(* ================================================================== *)
(** * The substitution loop *)
(* ================================================================== *)

Lemma fence_match_shorter (lit s r : pystr) :
  lit <> [] -> fence_match lit s = Some r -> length r < length s.
Proof.
  intros Hlit. unfold fence_match.
  destruct (strip_prefix lit s) as [rest|] eqn:E; [|discriminate].
  intros H; inversion H; subst r. apply strip_prefix_Some in E. subst s.
  rewrite length_app. pose proof (drop_while_length isspace rest).
  unfold lstrip. destruct lit; [congruence|simpl; lia].
Qed.

Lemma fence_match_nil (lit : pystr) : lit <> [] -> fence_match lit [] = None.
Proof. destruct lit; [congruence|reflexivity]. Qed.

(** More fuel than characters is enough: the result no longer depends on the
    fuel, so the loop has come to its end. *)
Lemma sub_loop_fuel (lit : pystr) :
  lit <> [] ->
  forall n m s, length s < n -> length s < m ->
                sub_loop n lit s = sub_loop m lit s.
Proof.
  intros Hlit. induction n as [|n IH]; intros m s Hn Hm; [lia|].
  destruct m as [|m]; [lia|]. simpl.
  destruct (fence_match lit s) as [r|] eqn:E.
  - pose proof (fence_match_shorter _ _ _ Hlit E). apply IH; lia.
  - destruct s as [|c s]; [reflexivity|]. simpl in Hn, Hm.
    f_equal. apply IH; lia.
Qed.

Lemma re_sub_nil (lit : pystr) : lit <> [] -> re_sub lit [] = [].
Proof. intros H. unfold re_sub. simpl. now rewrite fence_match_nil. Qed.

Lemma re_sub_match (lit s r : pystr) :
  lit <> [] -> fence_match lit s = Some r -> re_sub lit s = re_sub lit r.
Proof.
  intros Hlit E. unfold re_sub.
  change (sub_loop (S (length s)) lit s)
    with (match fence_match lit s with
          | Some rest => sub_loop (length s) lit rest
          | None => match s with
                    | [] => []
                    | c :: s' => c :: sub_loop (length s) lit s'
                    end
          end).
  rewrite E. pose proof (fence_match_shorter _ _ _ Hlit E).
  apply sub_loop_fuel; [assumption|lia|lia].
Qed.

Lemma re_sub_keep (lit : pystr) (c : N) (s : pystr) :
  lit <> [] -> fence_match lit (c :: s) = None ->
  re_sub lit (c :: s) = c :: re_sub lit s.
Proof.
  intros Hlit E. unfold re_sub.
  change (sub_loop (S (length (c :: s))) lit (c :: s))
    with (match fence_match lit (c :: s) with
          | Some rest => sub_loop (length (c :: s)) lit rest
          | None => c :: sub_loop (length (c :: s)) lit s
          end).
  rewrite E. reflexivity.
Qed.

(** Induction along the scan of [re_sub]. *)
Lemma re_sub_ind (lit : pystr) (P : pystr -> pystr -> Prop) :
  lit <> [] ->
  P [] [] ->
  (forall s r, fence_match lit s = Some r ->
               P r (re_sub lit r) -> P s (re_sub lit r)) ->
  (forall c s, fence_match lit (c :: s) = None ->
               P s (re_sub lit s) -> P (c :: s) (c :: re_sub lit s)) ->
  forall s, P s (re_sub lit s).
Proof.
  intros Hlit Hnil Hmatch Hkeep s.
  remember (length s) as n eqn:Hn. revert s Hn.
  induction n as [n IH] using lt_wf_ind. intros s Hn.
  destruct (fence_match lit s) as [r|] eqn:E.
  - rewrite (re_sub_match _ _ _ Hlit E). apply (Hmatch _ _ E).
    pose proof (fence_match_shorter _ _ _ Hlit E).
    apply (IH (length r)); [lia|reflexivity].
  - destruct s as [|c s].
    + now rewrite re_sub_nil.
    + rewrite (re_sub_keep _ _ _ Hlit E). apply (Hkeep _ _ E).
      apply (IH (length s)); [simpl in Hn; lia|reflexivity].
Qed.

(* ================================================================== *)
(** * clean_json_response leaves no fence *)
(* ================================================================== *)

Lemma fence_nonempty : fence <> [].
Proof. discriminate. Qed.

Lemma fence_json_nonempty : fence_json <> [].
Proof. discriminate. Qed.

Lemma startswith_fence_ticks (s : pystr) :
  startswith fence s = (3 <=? ticks s).
Proof.
  unfold startswith, fence.
  destruct s as [|a s]; [reflexivity|]. cbn [strip_prefix ticks].
  rewrite N.eqb_sym. destruct (N.eqb a backtick); [|reflexivity].
  destruct s as [|b s]; [reflexivity|]. cbn [strip_prefix ticks].
  rewrite N.eqb_sym. destruct (N.eqb b backtick); [|reflexivity].
  destruct s as [|c s]; [reflexivity|]. cbn [strip_prefix ticks].
  rewrite N.eqb_sym. destruct (N.eqb c backtick); reflexivity.
Qed.

Lemma fence_match_startswith (lit s : pystr) :
  startswith lit s = match fence_match lit s with
                     | Some _ => true
                     | None => false
                     end.
Proof.
  unfold startswith, fence_match. now destruct (strip_prefix lit s).
Qed.

(** The scan for the bare fence leaves no fence behind: what it keeps begins
    with no more backticks than what it read, and a kept backtick is never the
    first of three. *)
Lemma re_sub_fence_clean (s : pystr) :
  contains fence (re_sub fence s) = false
  /\ ticks (re_sub fence s) <= ticks s.
Proof.
  apply (re_sub_ind fence
           (fun s out => contains fence out = false /\ ticks out <= ticks s)
           fence_nonempty).
  - split; [reflexivity|simpl; lia].
  - intros s0 r E [Hc Ht]. split; [exact Hc|].
    pose proof (fence_match_startswith fence s0) as Hs. rewrite E in Hs.
    rewrite startswith_fence_ticks in Hs. apply Nat.leb_le in Hs.
    destruct (re_sub fence r) as [|c out] eqn:Eo; [simpl; lia|].
    rewrite contains_cons in Hc. apply orb_false_iff in Hc.
    destruct Hc as [Hc _]. rewrite startswith_fence_ticks in Hc.
    apply Nat.leb_gt in Hc. lia.
  - intros c s0 E [Hc Ht].
    pose proof (fence_match_startswith fence (c :: s0)) as Hs. rewrite E in Hs.
    rewrite startswith_fence_ticks in Hs. apply Nat.leb_gt in Hs.
    assert (Hle : ticks (c :: re_sub fence s0) <= ticks (c :: s0)).
    { simpl. destruct (N.eqb c backtick); lia. }
    split; [|exact Hle].
    rewrite contains_cons, Hc, orb_false_r, startswith_fence_ticks.
    apply Nat.leb_gt. lia.
Qed.

(** C10. For every input text, the output of [clean_json_response] has no
    occurrence of three backticks in a row: the markers are deleted
    wherever they stand, also inside the payload, as in
    [[1,```json 2,``` 3]], which becomes [[1,2,3]]. *)
Theorem clean_json_response_no_fence :
  (forall response_text : pystr,
      contains fence (clean_json_response response_text) = false)
  /\ clean_json_response
       (py "[1," ++ fence ++ py "json 2," ++ fence ++ py " 3]")
     = py "[1,2,3]".
Proof.
  split.
  - intros response_text. unfold clean_json_response.
    apply contains_strip. apply re_sub_fence_clean.
  - vm_compute. reflexivity.
Qed.

(* ================================================================== *)
(** * clean_json_response on a fenced text *)
(* ================================================================== *)

Lemma isspace_not_tick (c : N) : isspace c = true -> N.eqb c backtick = false.
Proof.
  intros H. destruct (N.eqb_spec c backtick) as [->|]; [|reflexivity].
  vm_compute in H. discriminate.
Qed.

Lemma isspace_not_json (c : N) :
  isspace c = true -> existsb (N.eqb c) (py "json") = false.
Proof.
  intros H. cbn [existsb py map list_ascii_of_string].
  repeat match goal with
         | |- context [N.eqb c ?x] =>
             destruct (N.eqb_spec c x) as [->|];
             [vm_compute in H; discriminate|]
         end.
  reflexivity.
Qed.

Lemma all_space_no_tick (s : pystr) : all_space s = true -> no_tick s = true.
Proof.
  unfold all_space, no_tick. induction s as [|c s IH]; simpl; [reflexivity|].
  intros H. apply andb_true_iff in H. destruct H as [Hc Hs].
  now rewrite (isspace_not_tick _ Hc), IH.
Qed.

Lemma no_tick_app (a b : pystr) :
  no_tick (a ++ b) = no_tick a && no_tick b.
Proof. apply forallb_app. Qed.

Lemma lstrip_app_space (ws x : pystr) :
  all_space ws = true -> lstrip (ws ++ x) = lstrip x.
Proof.
  unfold all_space, lstrip. induction ws as [|c ws IH]; simpl; [reflexivity|].
  intros H. apply andb_true_iff in H. destruct H as [-> Hs]. now apply IH.
Qed.

Lemma lstrip_all_space (ws : pystr) : all_space ws = true -> lstrip ws = [].
Proof.
  intros H. rewrite <- (app_nil_r ws). now rewrite lstrip_app_space.
Qed.

Lemma lstrip_app_stop (a : pystr) (c : N) (b : pystr) :
  isspace c = false -> lstrip (a ++ c :: b) = lstrip a ++ c :: b.
Proof.
  intros Hc. unfold lstrip. induction a as [|x a IH]; simpl.
  - now rewrite Hc.
  - destruct (isspace x); [exact IH|reflexivity].
Qed.

Lemma lstrip_idem (s : pystr) : lstrip (lstrip s) = lstrip s.
Proof.
  unfold lstrip. induction s as [|c s IH]; simpl; [reflexivity|].
  destruct (isspace c) eqn:E; [exact IH|]. simpl. now rewrite E.
Qed.

Lemma lstrip_no_tick (s : pystr) : no_tick s = true -> no_tick (lstrip s) = true.
Proof.
  unfold no_tick, lstrip. induction s as [|c s IH]; simpl; [reflexivity|].
  intros H. destruct (isspace c); [|exact H].
  apply andb_true_iff in H. now apply IH.
Qed.

Lemma rstrip_app_space (x ws : pystr) :
  all_space ws = true -> rstrip (x ++ ws) = rstrip x.
Proof.
  intros H. unfold rstrip. rewrite rev_app_distr.
  fold (lstrip (rev ws ++ rev x)). rewrite lstrip_app_space; [reflexivity|].
  unfold all_space in *. rewrite forallb_forall in *.
  intros c Hc. apply H. now apply in_rev.
Qed.

Lemma strip_app_space (body ws : pystr) :
  all_space ws = true -> strip (body ++ ws) = strip body.
Proof.
  intros H. unfold strip. induction body as [|c body IH].
  - simpl app. now rewrite (lstrip_all_space _ H).
  - unfold lstrip in *. simpl. destruct (isspace c); [exact IH|].
    change (c :: body ++ ws) with ((c :: body) ++ ws).
    now apply rstrip_app_space.
Qed.

(** Where no backtick stands, no fence pattern matches. *)
Lemma re_sub_skip (lit a b : pystr) :
  no_tick a = true ->
  re_sub (backtick :: lit) (a ++ b) = a ++ re_sub (backtick :: lit) b.
Proof.
  intros Ha. induction a as [|c a IH]; [reflexivity|].
  simpl in Ha. apply andb_true_iff in Ha. destruct Ha as [Hc Ha].
  simpl app. rewrite re_sub_keep; [now rewrite (IH Ha)|discriminate|].
  unfold fence_match. cbn [strip_prefix]. rewrite N.eqb_sym.
  apply negb_true_iff in Hc. now rewrite Hc.
Qed.

Lemma startswith_app_false (p b : pystr) (c : N) (t : pystr) :
  startswith p b = false -> existsb (N.eqb c) p = false ->
  startswith p (b ++ c :: t) = false.
Proof.
  unfold startswith. revert b. induction p as [|a p IH]; intros b Hb Hc.
  - discriminate.
  - simpl in Hc. apply orb_false_iff in Hc. destruct Hc as [Hca Hc].
    destruct b as [|y b]; simpl in *.
    + rewrite N.eqb_sym, Hca. reflexivity.
    + destruct (N.eqb a y); [now apply IH|reflexivity].
Qed.

Lemma startswith_false_match (lit s : pystr) :
  startswith lit s = false -> fence_match lit s = None.
Proof.
  rewrite fence_match_startswith. now destruct (fence_match lit s).
Qed.

Lemma startswith_cons (a : N) (p : pystr) (c : N) (s : pystr) :
  startswith (a :: p) (c :: s) = N.eqb a c && startswith p s.
Proof.
  unfold startswith. cbn [strip_prefix]. now destruct (N.eqb a c).
Qed.

Lemma startswith_space (a : N) (p ws : pystr) :
  isspace a = false -> all_space ws = true -> startswith (a :: p) ws = false.
Proof.
  intros Ha H. destruct ws as [|c w]; [reflexivity|].
  simpl in H. apply andb_true_iff in H. destruct H as [Hc _].
  rewrite startswith_cons. destruct (N.eqb_spec a c) as [->|]; [|reflexivity].
  congruence.
Qed.

(** A fence that no [json] tag follows is kept by the first substitution. *)
Lemma re_sub_json_keep_fence (z : pystr) :
  startswith (py "json") z = false ->
  startswith (backtick :: py "json") z = false ->
  startswith (backtick :: backtick :: py "json") z = false ->
  re_sub fence_json (fence ++ z) = fence ++ re_sub fence_json z.
Proof.
  intros H1 H2 H3. unfold fence. cbn [app].
  rewrite !re_sub_keep; try reflexivity; try apply fence_json_nonempty;
    apply startswith_false_match; unfold fence_json, fence; cbn [app];
    rewrite !startswith_cons, !N.eqb_refl; cbn [andb]; assumption.
Qed.

Lemma re_sub_json_skip (a b : pystr) :
  no_tick a = true -> re_sub fence_json (a ++ b) = a ++ re_sub fence_json b.
Proof.
  exact (re_sub_skip (backtick :: backtick :: py "json") a b).
Qed.

Lemma re_sub_fence_skip (a b : pystr) :
  no_tick a = true -> re_sub fence (a ++ b) = a ++ re_sub fence b.
Proof. exact (re_sub_skip [backtick; backtick] a b). Qed.

Lemma re_sub_json_closing (ws3 : pystr) :
  all_space ws3 = true -> re_sub fence_json (fence ++ ws3) = fence ++ ws3.
Proof.
  intros H. rewrite re_sub_json_keep_fence;
    try (apply startswith_space; [reflexivity|exact H]).
  f_equal. rewrite <- (app_nil_r ws3) at 1.
  rewrite (re_sub_json_skip _ _ (all_space_no_tick _ H)).
  rewrite re_sub_nil by apply fence_json_nonempty. apply app_nil_r.
Qed.

Lemma re_sub_fence_closing (b ws3 : pystr) :
  no_tick b = true -> all_space ws3 = true ->
  re_sub fence (b ++ fence ++ ws3) = b.
Proof.
  intros Hb H. rewrite (re_sub_fence_skip _ _ Hb).
  rewrite (re_sub_match fence _ (lstrip ws3) fence_nonempty).
  - rewrite (lstrip_all_space _ H), re_sub_nil by apply fence_nonempty.
    apply app_nil_r.
  - unfold fence_match. now rewrite strip_prefix_app.
Qed.

Lemma strip_space_app (ws x : pystr) :
  all_space ws = true -> strip (ws ++ x) = strip x.
Proof. intros H. unfold strip. now rewrite lstrip_app_space. Qed.

Lemma strip_lstrip (x : pystr) : strip (lstrip x) = strip x.
Proof. unfold strip. now rewrite lstrip_idem. Qed.

(** C8 (amended). A text that consists of an opening fence, with the tag
    [json] or with no tag, a body without backticks and a closing fence, with
    any white space around each of them, is cleaned to the stripped body.
    [tagged] tells whether the tag [json] follows the opening fence; without
    the tag, what follows the opening fence must not begin with [json]. *)
Theorem clean_json_response_fenced (tagged : bool)
    (ws0 ws1 body ws2 ws3 : pystr) :
  all_space ws0 = true -> all_space ws1 = true ->
  all_space ws2 = true -> all_space ws3 = true ->
  no_tick body = true ->
  (tagged = false -> startswith (py "json") (ws1 ++ body) = false) ->
  clean_json_response
    (ws0 ++ fence ++ (if tagged then py "json" else []) ++ ws1 ++ body
     ++ ws2 ++ fence ++ ws3)
  = strip body.
Proof.
  intros H0 H1 H2 H3 Hb Htag.
  pose proof (all_space_no_tick _ H0) as T0.
  assert (Ty : no_tick (ws1 ++ body ++ ws2) = true).
  { rewrite !no_tick_app, Hb, (all_space_no_tick _ H1),
      (all_space_no_tick _ H2). reflexivity. }
  assert (Hz : ws1 ++ body ++ ws2 ++ fence ++ ws3
               = (ws1 ++ body ++ ws2) ++ fence ++ ws3).
  { now rewrite <- !app_assoc. }
  assert (Hl : lstrip ((ws1 ++ body ++ ws2) ++ fence ++ ws3)
               = lstrip (ws1 ++ body ++ ws2) ++ fence ++ ws3).
  { unfold fence at 1 2. cbn [app]. now apply lstrip_app_stop. }
  assert (F1 : tagged = false ->
               startswith (py "json") ((ws1 ++ body ++ ws2) ++ fence ++ ws3)
               = false).
  { intros Ht. specialize (Htag Ht). rewrite <- Hz.
    rewrite (app_assoc ws1 body). destruct ws2 as [|c w].
    - apply startswith_app_false; [exact Htag|reflexivity].
    - apply startswith_app_false; [exact Htag|].
      simpl in H2. apply andb_true_iff in H2.
      now apply isspace_not_json. }
  assert (Hout : re_sub fence (re_sub fence_json
                   (ws0 ++ fence ++ (if tagged then py "json" else [])
                    ++ ws1 ++ body ++ ws2 ++ fence ++ ws3))
                 = ws0 ++ lstrip (ws1 ++ body ++ ws2)).
  { rewrite Hz. set (y := ws1 ++ body ++ ws2) in *.
    rewrite (re_sub_json_skip _ _ T0).
    destruct tagged.
    - rewrite (app_assoc fence). fold fence_json.
      rewrite (re_sub_match fence_json _ (lstrip (y ++ fence ++ ws3))
                 fence_json_nonempty);
        [|unfold fence_match; now rewrite strip_prefix_app].
      rewrite Hl.
      rewrite (re_sub_json_skip _ _ (lstrip_no_tick _ Ty)).
      rewrite (re_sub_json_closing _ H3).
      rewrite app_assoc. apply re_sub_fence_closing; [|exact H3].
      now rewrite no_tick_app, T0, (lstrip_no_tick _ Ty).
    - cbn [app]. clearbody y.
      assert (F2 : startswith (backtick :: py "json") (y ++ fence ++ ws3)
                   = false
                   /\ startswith (backtick :: backtick :: py "json")
                        (y ++ fence ++ ws3) = false).
      { destruct y as [|c y].
        - split; reflexivity.
        - simpl in Ty. apply andb_true_iff in Ty. destruct Ty as [Hc _].
          apply negb_true_iff in Hc. cbn [app].
          rewrite !startswith_cons, (N.eqb_sym backtick), Hc. now split. }
      destruct F2 as [F2a F2b].
      rewrite (re_sub_json_keep_fence _ (F1 eq_refl) F2a F2b).
      rewrite (re_sub_json_skip _ _ Ty), (re_sub_json_closing _ H3).
      rewrite (re_sub_fence_skip _ _ T0).
      rewrite (re_sub_match fence _ (lstrip (y ++ fence ++ ws3))
                 fence_nonempty);
        [|unfold fence_match; now rewrite strip_prefix_app].
      rewrite Hl, (re_sub_fence_closing _ _ (lstrip_no_tick _ Ty) H3).
      reflexivity.
  }
  unfold clean_json_response. rewrite Hout.
  rewrite (strip_space_app _ _ H0), strip_lstrip, (strip_space_app _ _ H1).
  apply strip_app_space. exact H2.
Qed.

(** The example of the specification, from the theorem above. *)
Lemma clean_json_response_fenced_example :
  clean_json_response
    (fence ++ py "json" ++ newline ++ py "{" ++ dquote ++ py "notes" ++ dquote
     ++ py ":[]}" ++ newline ++ fence)
  = py "{" ++ dquote ++ py "notes" ++ dquote ++ py ":[]}".
Proof.
  exact (clean_json_response_fenced true [] newline
           (py "{" ++ dquote ++ py "notes" ++ dquote ++ py ":[]}") newline []
           eq_refl eq_refl eq_refl eq_refl eq_refl
           (fun H : true = false =>
              False_ind _ (Bool.diff_true_false H))).
Defined.

(** C8 (as stated) fails: a tag other than [json] stays in the text, here
    for the text [```python\n{}\n```]; and of a tag that begins with [json]
    only that beginning goes, here for [```jsonc\n{}\n```]. *)
Lemma clean_json_response_other_tag :
  clean_json_response
    (fence ++ py "python" ++ newline ++ py "{}" ++ newline ++ fence)
  = py "python" ++ newline ++ py "{}"
  /\ clean_json_response
       (fence ++ py "python" ++ newline ++ py "{}" ++ newline ++ fence)
     <> py "{}"
  /\ clean_json_response
       (fence ++ py "jsonc" ++ newline ++ py "{}" ++ newline ++ fence)
     = py "c" ++ newline ++ py "{}".
Proof.
  split; [vm_compute; reflexivity|].
  split; [vm_compute; discriminate|vm_compute; reflexivity].
Qed.

(* ================================================================== *)
(** * validate_study_data: the shape of the result *)
(* ================================================================== *)

Section SanitizerFacts.
Context {rt : PyRuntime}.

Lemma OK_inj (A : Type) (a b : A) : OK a = OK b -> a = b.
Proof. congruence. Qed.

Lemma pad_while_list (fuel : nat) (l : list json) :
  4 - length l < fuel ->
  pad_while fuel (JList l) = OK (JList (l ++ pads (length l))).
Proof.
  revert l. induction fuel as [|fuel IH]; intros l H; [lia|].
  cbn [pad_while py_len bind]. unfold pads.
  destruct (Nat.ltb_spec (length l) 4) as [Hlt|Hge].
  - cbn [py_append bind]. rewrite IH by (rewrite length_app; cbn [length]; lia).
    unfold pads. rewrite length_app. cbn [length].
    replace (4 - length l) with (S (4 - (length l + 1))) by lia.
    cbn [seq map]. rewrite <- app_assoc. cbn [app].
    now rewrite Nat.add_1_r.
  - replace (4 - length l) with 0 by lia. cbn [seq map].
    now rewrite app_nil_r.
Qed.

(** The loop is left by its test: the value has four elements or more. *)
Lemma pad_while_exit (options options' : json) :
  pad_while 5 options = OK options' ->
  exists n, py_len options' = OK n /\ 4 <= n.
Proof.
  destruct options as [| | | |s|l|d]; try discriminate.
  - cbn [pad_while py_len bind].
    destruct (Nat.ltb_spec (length s) 4) as [Hlt|Hge]; [discriminate|].
    intros HOK; apply OK_inj in HOK; subst. now exists (length s).
  - rewrite pad_while_list by lia. intros HOK; apply OK_inj in HOK; subst.
    exists (length (l ++ pads (length l))). split; [reflexivity|].
    unfold pads. rewrite length_app, length_map, length_seq. lia.
  - cbn [pad_while py_len bind].
    destruct (Nat.ltb_spec (length d) 4) as [Hlt|Hge]; [discriminate|].
    intros HOK; apply OK_inj in HOK; subst. now exists (length d).
Qed.

Lemma fix_options_list (l : list json) :
  fix_options (JList l) = OK (JList (firstn 4 (l ++ pads (length l)))).
Proof.
  unfold fix_options. cbn [py_len bind].
  destruct (Nat.eqb_spec (length l) 4) as [E|E]; cbn [negb].
  - rewrite E. unfold pads. cbn [seq map Nat.sub]. rewrite app_nil_r.
    rewrite <- E. now rewrite firstn_all.
  - rewrite pad_while_list by lia. reflexivity.
Qed.

Lemma fix_options_four (v v' : json) (opts : list json) :
  fix_options v = OK v' -> py_iter v' = OK opts -> length opts = 4.
Proof.
  destruct v as [| | | |s|l|d]; try discriminate.
  - unfold fix_options. cbn [py_len bind].
    destruct (Nat.eqb_spec (length s) 4) as [E|E]; cbn [negb].
    + intros HOK; apply OK_inj in HOK; subst. cbn [py_iter].
      intros HOK; apply OK_inj in HOK; subst. now rewrite length_map.
    + cbn [pad_while py_len bind].
      destruct (Nat.ltb_spec (length s) 4) as [Hlt|Hge]; [discriminate|].
      cbn [bind py_slice_to]. intros HOK; apply OK_inj in HOK; subst.
      cbn [py_iter]. intros HOK; apply OK_inj in HOK; subst.
      rewrite length_map, length_firstn. lia.
  - rewrite fix_options_list. intros HOK; apply OK_inj in HOK; subst. cbn [py_iter].
    intros HOK; apply OK_inj in HOK; subst.
    rewrite length_firstn, length_app. unfold pads.
    rewrite length_map, length_seq. lia.
  - unfold fix_options. cbn [py_len bind].
    destruct (Nat.eqb_spec (length d) 4) as [E|E]; cbn [negb].
    + intros HOK; apply OK_inj in HOK; subst. cbn [py_iter].
      intros HOK; apply OK_inj in HOK; subst. now rewrite length_map.
    + cbn [pad_while py_len bind].
      destruct (Nat.ltb_spec (length d) 4); discriminate.
Qed.

Lemma validate_mcq_inv (mcq : list (pystr * json)) (m : MCQ) :
  validate_mcq mcq = OK m ->
  exists v opts,
    fix_options (dict_get_or "options" (JList []) mcq) = OK v
    /\ py_iter v = OK opts
    /\ m = {| question :=
                py_str (dict_get_or "question" (JStr (py "Question")) mcq);
              options := map py_str opts;
              answer :=
                str_upper
                  (py_str (dict_get_or "answer" (JStr (py "A")) mcq)) |}.
Proof.
  unfold validate_mcq.
  destruct (fix_options (dict_get_or "options" (JList []) mcq)) as [v|e];
    [|discriminate].
  cbn [bind]. destruct (py_iter v) as [opts|e] eqn:Ei; [|discriminate].
  cbn [bind]. intros HOK; apply OK_inj in HOK; subst.
  exists v, opts. repeat split. exact Ei.
Qed.

Lemma mcq_loop_spec (items : list json) (acc out : list MCQ) :
  mcq_loop items acc = OK out ->
  exists new,
    out = acc ++ new
    /\ length new <= length items
    /\ Forall (fun m => exists mcq, In (JDict mcq) items
                                    /\ validate_mcq mcq = OK m) new.
Proof.
  revert acc. induction items as [|item items IH]; intros acc H.
  - cbn in H. inversion H; subst. exists []. rewrite app_nil_r.
    repeat split; [cbn; lia|constructor].
  - assert (Hskip : mcq_loop items acc = OK out ->
                    exists new,
                      out = acc ++ new
                      /\ length new <= length (item :: items)
                      /\ Forall (fun m => exists mcq,
                                     In (JDict mcq) (item :: items)
                                     /\ validate_mcq mcq = OK m) new).
    { intros H'. destruct (IH _ H') as (new & E & L & F).
      exists new. repeat split; [exact E|cbn; lia|].
      eapply Forall_impl; [|exact F].
      intros m (mcq & Hin & Hv). exists mcq. split; [now right|exact Hv]. }
    destruct item as [| | | | | |mcq]; try (apply Hskip; exact H).
    cbn [mcq_loop] in H.
    destruct (validate_mcq mcq) as [m|e] eqn:Ev; [|discriminate].
    cbn [bind] in H. destruct (IH _ H) as (new & E & L & F).
    exists (m :: new). rewrite <- app_assoc in E. repeat split.
    + exact E.
    + cbn; lia.
    + constructor.
      * exists mcq. split; [now left|exact Ev].
      * eapply Forall_impl; [|exact F].
        intros m' (mcq' & Hin & Hv). exists mcq'. split; [now right|exact Hv].
Qed.

Lemma card_loop_length (items : list json) (acc : list Flashcard) :
  length (card_loop items acc) <= length acc + length items.
Proof.
  revert acc. induction items as [|item items IH]; intros acc; cbn [card_loop].
  - cbn; lia.
  - destruct item; cbn [length]; try (specialize (IH acc); lia).
    specialize (IH (acc ++ [validate_flashcard d])).
    rewrite length_app in IH. cbn in IH. lia.
Qed.

Lemma validate_study_data_dict (d : list (pystr * json)) :
  validate_study_data (JDict d)
  = (validated_mcqs <- mcq_loop (firstn 5 (list_field "mcqs" d)) [] ;;
     OK {| notes := note_list d;
           mcqs := validated_mcqs;
           flashcards := card_loop (firstn 3 (list_field "flashcards" d)) []
        |}).
Proof.
  unfold validate_study_data, note_list, list_field. cbn [py_get bind].
  destruct (dict_get_or "notes" (JList []) d); reflexivity.
Qed.

Lemma validate_study_data_inv (data : json) (sd : StudyData) :
  validate_study_data data = OK sd ->
  exists d out,
    data = JDict d
    /\ mcq_loop (firstn 5 (list_field "mcqs" d)) [] = OK out
    /\ sd = {| notes := note_list d;
               mcqs := out;
               flashcards :=
                 card_loop (firstn 3 (list_field "flashcards" d)) [] |}.
Proof.
  destruct data as [| | | | | |d]; try discriminate.
  rewrite validate_study_data_dict.
  destruct (mcq_loop (firstn 5 (list_field "mcqs" d)) []) as [out|e] eqn:El;
    [|discriminate].
  cbn [bind]. intros HOK; apply OK_inj in HOK; subst.
  exists d, out. repeat split. exact El.
Qed.

(** C2. Whenever [validate_study_data] returns, there are at most 5 mcqs,
    each with exactly 4 options, and at most 3 flashcards. *)
Theorem validate_study_data_bounds (data : json) (sd : StudyData) :
  validate_study_data data = OK sd ->
  length (mcqs sd) <= 5
  /\ Forall (fun m => length (options m) = 4) (mcqs sd)
  /\ length (flashcards sd) <= 3.
Proof.
  intros H. apply validate_study_data_inv in H.
  destruct H as (d & out & -> & Hloop & ->). cbn [mcqs flashcards].
  apply mcq_loop_spec in Hloop. destruct Hloop as (new & -> & L & F).
  cbn [app]. repeat split.
  - rewrite length_firstn in L. lia.
  - eapply Forall_impl; [|exact F]. intros m (mcq & _ & Hv).
    apply validate_mcq_inv in Hv. destruct Hv as (v & opts & Hf & Hi & ->).
    cbn [options]. rewrite length_map. exact (fix_options_four _ _ _ Hf Hi).
  - pose proof (card_loop_length (firstn 3 (list_field "flashcards" d)) []) as L'.
    rewrite length_firstn in L'. cbn [length] in L'. lia.
Qed.

End SanitizerFacts.

(** Three [mcqs] items, one of them not a mapping and one with a string for
    its options, and four [flashcards] items. *)
Lemma validate_study_data_bounds_witness :
  exists sd,
    @validate_study_data ascii_runtime
      (JDict [(py "mcqs",
               JList [JDict [(py "options", JList [JStr (py "A) x")])];
                      JInt 7;
                      JDict [(py "options", JStr (py "abcde"))]]);
              (py "flashcards",
               JList [JDict []; JDict []; JDict []; JDict []])])
    = OK sd
    /\ length (mcqs sd) <= 5
    /\ Forall (fun m => length (options m) = 4) (mcqs sd)
    /\ length (flashcards sd) <= 3.
Proof.
  eexists. split; [reflexivity|].
  apply (@validate_study_data_bounds ascii_runtime
           (JDict [(py "mcqs",
                    JList [JDict [(py "options", JList [JStr (py "A) x")])];
                           JInt 7;
                           JDict [(py "options", JStr (py "abcde"))]]);
                   (py "flashcards",
                    JList [JDict []; JDict []; JDict []; JDict []])])).
  reflexivity.
Defined.

(* ================================================================== *)
(** * validate_study_data: when it returns, and what *)
(* ================================================================== *)

Section SanitizerClaims.
Context {rt : PyRuntime}.

Lemma dict_get_or_Some (key : string) (default v : json)
    (d : list (pystr * json)) :
  dict_get (py key) d = Some v -> dict_get_or key default d = v.
Proof. unfold dict_get_or. now intros ->. Qed.

Lemma dict_get_or_None (key : string) (default : json)
    (d : list (pystr * json)) :
  dict_get (py key) d = None -> dict_get_or key default d = default.
Proof. unfold dict_get_or. now intros ->. Qed.

Lemma validate_mcq_list (mcq : list (pystr * json)) (l : list json) :
  dict_get_or "options" (JList []) mcq = JList l ->
  validate_mcq mcq
  = OK {| question :=
            py_str (dict_get_or "question" (JStr (py "Question")) mcq);
          options := map py_str (firstn 4 (l ++ pads (length l)));
          answer :=
            str_upper (py_str (dict_get_or "answer" (JStr (py "A")) mcq)) |}.
Proof.
  intros H. unfold validate_mcq. rewrite H, fix_options_list. reflexivity.
Qed.

Lemma mcq_loop_total (items : list json) (acc : list MCQ) :
  forallb options_is_list items = true ->
  exists out, mcq_loop items acc = OK out.
Proof.
  revert acc. induction items as [|item items IH]; intros acc H.
  - now exists acc.
  - cbn [forallb] in H. apply andb_true_iff in H. destruct H as [Hi H].
    destruct item as [| | | | | |mcq]; cbn [mcq_loop]; try (now apply IH).
    cbn [options_is_list] in Hi.
    destruct (dict_get_or "options" (JList []) mcq) as [| | | | |l|] eqn:E;
      try discriminate.
    rewrite (validate_mcq_list _ _ E). cbn [bind]. now apply IH.
Qed.

(** C1 (amended). On a mapping in which the [options] of every mapping among
    the first five [mcqs] items are a list or absent, [validate_study_data]
    returns a [StudyData], whatever the other fields hold; on the empty
    mapping it returns the empty [StudyData]. *)
Theorem validate_study_data_returns (d : list (pystr * json)) :
  forallb options_is_list (firstn 5 (list_field "mcqs" d)) = true ->
  (exists sd, validate_study_data (JDict d) = OK sd)
  /\ validate_study_data (JDict [])
     = OK {| notes := []; mcqs := []; flashcards := [] |}.
Proof.
  intros H. split; [|reflexivity].
  rewrite validate_study_data_dict.
  destruct (mcq_loop_total _ [] H) as [out ->]. cbn [bind]. eauto.
Qed.

End SanitizerClaims.

(** An input with fields of unexpected types: [notes] a number, [mcqs] with
    a number and a mapping whose answer is [null], [flashcards] a string. *)
Lemma validate_study_data_returns_witness :
  exists sd,
    @validate_study_data ascii_runtime
      (JDict [(py "notes", JInt 7);
              (py "mcqs",
               JList [JInt 3;
                      JDict [(py "options", JList [JStr (py "x")]);
                             (py "answer", JNull)]]);
              (py "flashcards", JStr (py "zzz"))])
    = OK sd.
Proof.
  apply (@validate_study_data_returns ascii_runtime). reflexivity.
Defined.

(** C1 (as stated) fails: a value that is not a mapping has no [get]; and,
    within a mapping, [options] that are a number have no [len]. *)
Lemma validate_study_data_raises :
  @validate_study_data ascii_runtime (JList [])
  = Raise (AttributeError (py "'list' object has no attribute 'get'"))
  /\ @validate_study_data ascii_runtime
       (JDict [(py "mcqs", JList [JDict [(py "options", JInt 5)]])])
     = Raise (TypeError (py "object of type 'int' has no len()"))
  /\ ~ (forall (rt : PyRuntime) (data : json),
           exists sd, validate_study_data data = OK sd).
Proof.
  split; [reflexivity|]. split; [reflexivity|].
  intros H. destruct (H ascii_runtime (JList [])) as [sd Hsd]. discriminate.
Qed.

Section SanitizerRules.
Context {rt : PyRuntime}.

(** C5. For an mcq mapping whose [options] are a list of [n] elements:
    for [n < 4] the result keeps them all (as strings) and appends the
    placeholders of the positions [n] to [3]; for [n > 4] it is the first four
    of them, with no placeholder; so no item is both padded and truncated.
    The two examples of the specification follow. *)
Theorem validate_mcq_options :
  (forall (mcq : list (pystr * json)) (l : list json),
      dict_get (py "options") mcq = Some (JList l) ->
      exists m,
        validate_mcq mcq = OK m
        /\ (length l < 4 ->
            options m
            = map py_str l ++ map placeholder (seq (length l) (4 - length l)))
        /\ (4 < length l -> options m = map py_str (firstn 4 l))
        /\ (length l = 4 -> options m = map py_str l))
  /\ map placeholder [0; 1; 2; 3]
     = [py "A) Option 1"; py "B) Option 2"; py "C) Option 3";
        py "D) Option 4"]
  /\ validate_study_data
       (JDict [(py "mcqs",
                JList [JDict [(py "options", JList [JStr (py "A) x")])]])])
     = OK {| notes := [];
             mcqs := [ {| question := py "Question";
                          options := [py "A) x"; py "B) Option 2";
                                      py "C) Option 3"; py "D) Option 4"];
                          answer := py "A" |} ];
             flashcards := [] |}
  /\ validate_study_data
       (JDict [(py "mcqs",
                JList [JDict [(py "options",
                               JList [JStr (py "a"); JStr (py "b");
                                      JStr (py "c"); JStr (py "d");
                                      JStr (py "e")])]])])
     = OK {| notes := [];
             mcqs := [ {| question := py "Question";
                          options := [py "a"; py "b"; py "c"; py "d"];
                          answer := py "A" |} ];
             flashcards := [] |}.
Proof.
  split; [|split; [reflexivity|split; vm_compute; reflexivity]].
  intros mcq l H.
  pose proof (dict_get_or_Some "options" (JList []) _ _ H) as E.
  eexists. split; [exact (validate_mcq_list _ _ E)|]. cbn [options].
  unfold pads. repeat split; intros Hl.
  - rewrite firstn_all2 by (rewrite length_app, length_map, length_seq; lia).
    rewrite map_app, map_map. reflexivity.
  - rewrite firstn_app. replace (4 - length l) with 0 by lia.
    cbn [firstn seq map]. now rewrite !app_nil_r.
  - rewrite Hl. cbn [seq map Nat.sub]. rewrite app_nil_r, <- Hl.
    now rewrite firstn_all.
Qed.

Lemma to_upper_is_ascii (c : N) :
  is_ascii c = true -> to_upper c = [ascii_upper c].
Proof.
  unfold is_ascii, to_upper, ascii_upper, is_ascii_lower. now intros ->.
Qed.

Lemma str_upper_map_ascii_upper (a : pystr) :
  forallb is_ascii a = true -> str_upper a = map ascii_upper a.
Proof.
  unfold str_upper. induction a as [|c a IH]; cbn [forallb flat_map map];
    [reflexivity|].
  intros H. apply andb_true_iff in H. destruct H as [Hc Ha].
  now rewrite (to_upper_is_ascii _ Hc), (IH Ha).
Qed.

Lemma str_upper_unchanged (a : pystr) :
  forallb is_plain a = true -> str_upper a = a.
Proof.
  intros H. rewrite str_upper_map_ascii_upper.
  - induction a as [|c a IH]; [reflexivity|]. cbn [forallb map] in *.
    apply andb_true_iff in H. destruct H as [Hc Ha]. rewrite (IH Ha).
    unfold is_plain in Hc. apply andb_true_iff in Hc. destruct Hc as [_ Hl].
    apply negb_true_iff in Hl. unfold ascii_upper. now rewrite Hl.
  - rewrite forallb_forall in *. intros c Hc. specialize (H c Hc).
    unfold is_plain in H. now apply andb_true_iff in H.
Qed.

Lemma uint_str_plain (d : Decimal.uint) :
  forallb is_plain (py (NilEmpty.string_of_uint d)) = true.
Proof.
  induction d; cbn [NilEmpty.string_of_uint]; [reflexivity|..];
    unfold py in *; cbn [list_ascii_of_string map forallb];
    rewrite IHd; reflexivity.
Qed.

Lemma int_str_plain (z : Z) : forallb is_plain (int_str z) = true.
Proof.
  unfold int_str. destruct (Z.to_int z) as [d|d];
    cbn [NilEmpty.string_of_int]; [apply uint_str_plain|].
  pose proof (uint_str_plain d) as H. unfold py in *.
  cbn [list_ascii_of_string map forallb]. now rewrite H.
Qed.

(** C6. The answer of an mcq is the upper-cased string form of the answer of
    the mapping, and ["A"] when the mapping has none.  For a string it is the
    string upper-cased, which for ASCII characters turns the letters [a] to
    [z] into [A] to [Z] and leaves the rest; [null] gives [NONE], a boolean
    [TRUE] or [FALSE], an integer its decimal digits.  Upper-casing and the
    digits are computed on examples, and the example of the specification
    follows, with one of each kind of answer after it. *)
Theorem validate_mcq_answer :
  (forall (mcq : list (pystr * json)) (m : MCQ),
      validate_mcq mcq = OK m ->
      (dict_get (py "answer") mcq = None -> answer m = py "A")
      /\ (forall a, dict_get (py "answer") mcq = Some (JStr a) ->
                    answer m = str_upper a
                    /\ (forallb is_ascii a = true ->
                        answer m = map ascii_upper a))
      /\ (dict_get (py "answer") mcq = Some JNull -> answer m = py "NONE")
      /\ (forall b, dict_get (py "answer") mcq = Some (JBool b) ->
                    answer m = py (if b then "TRUE" else "FALSE"))
      /\ (forall z, dict_get (py "answer") mcq = Some (JInt z) ->
                    answer m = int_str z)
      /\ answer m
         = str_upper (py_str (dict_get_or "answer" (JStr (py "A")) mcq)))
  /\ map ascii_upper (py "abcdefghijklmnopqrstuvwxyz 019)")
     = py "ABCDEFGHIJKLMNOPQRSTUVWXYZ 019)"
  /\ (int_str 5 = py "5" /\ int_str (-12) = py "-12" /\ int_str 0 = py "0")
  /\ validate_study_data
       (JDict [(py "mcqs", JList [JDict [(py "answer", JStr (py "b"))]])])
     = OK {| notes := [];
             mcqs := [ {| question := py "Question";
                          options := [py "A) Option 1"; py "B) Option 2";
                                      py "C) Option 3"; py "D) Option 4"];
                          answer := py "B" |} ];
             flashcards := [] |}
  /\ (exists sd,
         validate_study_data
           (JDict [(py "mcqs",
                    JList [JDict [(py "answer", JStr (py "dE"))];
                           JDict [(py "answer", JNull)];
                           JDict [(py "answer", JBool true)];
                           JDict [(py "answer", JInt (-12))];
                           JDict []])])
         = OK sd
         /\ map answer (mcqs sd)
            = [py "DE"; py "NONE"; py "TRUE"; py "-12"; py "A"]).
Proof.
  split; [|split; [vm_compute; reflexivity|
           split; [repeat split; vm_compute; reflexivity|
           split; [vm_compute; reflexivity|]]]].
  - intros mcq m H. apply validate_mcq_inv in H.
    destruct H as (v & opts & _ & _ & ->). cbn [answer]. repeat split.
    + intros Hn. now rewrite (dict_get_or_None "answer" _ _ Hn).
    + now rewrite (dict_get_or_Some "answer" _ _ _ H).
    + intros Ha. rewrite (dict_get_or_Some "answer" _ _ _ H). cbn [py_str].
      now apply str_upper_map_ascii_upper.
    + intros Hn. now rewrite (dict_get_or_Some "answer" _ _ _ Hn).
    + intros b Hn. rewrite (dict_get_or_Some "answer" _ _ _ Hn).
      now destruct b.
    + intros z Hn. rewrite (dict_get_or_Some "answer" _ _ _ Hn).
      cbn [py_str py_repr]. apply str_upper_unchanged, int_str_plain.
  - eexists. split; vm_compute; reflexivity.
Qed.

End SanitizerRules.

Lemma validate_mcq_options_witness :
  exists m,
    @validate_mcq ascii_runtime [(py "options", JList [JStr (py "A) x")])]
    = OK m
    /\ options m
       = [py "A) x"; py "B) Option 2"; py "C) Option 3"; py "D) Option 4"].
Proof.
  destruct (proj1 (@validate_mcq_options ascii_runtime)
              [(py "options", JList [JStr (py "A) x")])]
              [JStr (py "A) x")] eq_refl)
    as (m & Hm & Hpad & _).
  exists m. split; [exact Hm|]. rewrite Hpad by (cbn; lia). reflexivity.
Defined.

(** The answer [b] of a mapping comes out as [B]. *)
Lemma validate_mcq_answer_witness :
  exists m,
    @validate_mcq ascii_runtime [(py "answer", JStr (py "b"))] = OK m
    /\ answer m = py "B".
Proof.
  eexists. split; [reflexivity|].
  destruct (proj1 (@validate_mcq_answer ascii_runtime)
              [(py "answer", JStr (py "b"))] _ eq_refl) as (_ & Hstr & _).
  exact (proj2 (Hstr (py "b") eq_refl) eq_refl).
Defined.

Section SanitizerAnswers.
Context {rt : PyRuntime}.

Lemma str_upper_fixed (a : pystr) : is_uppercase a -> str_upper a = a.
Proof.
  unfold is_uppercase, str_upper. induction 1 as [|c a Hc _ IH]; cbn [flat_map].
  - reflexivity.
  - now rewrite Hc, IH.
Qed.

Lemma to_upper_ascii_letter (c : N) :
  is_ascii_upper c || is_ascii_lower c = true ->
  exists c', to_upper c = [c'] /\ is_ascii_upper c' = true.
Proof.
  unfold is_ascii_upper, is_ascii_lower, to_upper. intros H.
  apply orb_true_iff in H.
  destruct H as [H|H]; apply andb_true_iff in H; destruct H as [H1 H2];
    apply N.leb_le in H1, H2.
  - exists c. replace (c <? 128)%N with true by (symmetry; apply N.ltb_lt; lia).
    replace (97 <=? c)%N with false by (symmetry; apply N.leb_gt; lia).
    cbn [andb]. split; [reflexivity|].
    apply andb_true_iff. split; apply N.leb_le; lia.
  - exists (c - 32)%N.
    replace (c <? 128)%N with true by (symmetry; apply N.ltb_lt; lia).
    replace (97 <=? c)%N with true by (symmetry; apply N.leb_le; lia).
    replace (c <=? 122)%N with true by (symmetry; apply N.leb_le; lia).
    cbn [andb]. split; [reflexivity|].
    apply andb_true_iff. split; apply N.leb_le; lia.
Qed.

(** C7 (amended). Whenever [validate_study_data] returns, the answer of every
    mcq is the upper-cased string form of the answer of one of the first five
    [mcqs] items (of ["A"] when that item has none); it is a single
    upper-case letter whenever that answer is a string of one ASCII letter,
    whichever letter it is. *)
Theorem validate_study_data_answers (data : json) (sd : StudyData) :
  validate_study_data data = OK sd ->
  exists d,
    data = JDict d
    /\ Forall
         (fun m =>
            exists mcq,
              In (JDict mcq) (firstn 5 (list_field "mcqs" d))
              /\ answer m
                 = str_upper
                     (py_str (dict_get_or "answer" (JStr (py "A")) mcq))
              /\ (forall c,
                     dict_get (py "answer") mcq = Some (JStr [c]) ->
                     is_ascii_upper c || is_ascii_lower c = true ->
                     single_uppercase_letter (answer m) = true))
         (mcqs sd).
Proof.
  intros H. apply validate_study_data_inv in H.
  destruct H as (d & out & -> & Hloop & ->). cbn [mcqs].
  exists d. split; [reflexivity|].
  apply mcq_loop_spec in Hloop. destruct Hloop as (new & -> & _ & F).
  cbn [app]. eapply Forall_impl; [|exact F].
  intros m (mcq & Hin & Hv). exists mcq. split; [exact Hin|].
  apply validate_mcq_inv in Hv. destruct Hv as (v & opts & _ & _ & ->).
  cbn [answer]. split; [reflexivity|].
  intros c Hc Hletter. rewrite (dict_get_or_Some "answer" _ _ _ Hc).
  cbn [py_str str_upper flat_map]. rewrite app_nil_r.
  destruct (to_upper_ascii_letter _ Hletter) as (c' & -> & Hup).
  cbn [single_uppercase_letter]. now rewrite Hup.
Qed.

End SanitizerAnswers.

(** The answer [e] comes out as the single letter [E]. *)
Lemma validate_study_data_answers_witness :
  exists sd,
    @validate_study_data ascii_runtime
      (JDict [(py "mcqs", JList [JDict [(py "answer", JStr (py "e"))]])])
    = OK sd
    /\ Forall (fun m => single_uppercase_letter (answer m) = true) (mcqs sd)
    /\ map answer (mcqs sd) = [py "E"].
Proof.
  eexists. split; [reflexivity|]. split; [|reflexivity].
  destruct (@validate_study_data_answers ascii_runtime
              (JDict [(py "mcqs",
                       JList [JDict [(py "answer", JStr (py "e"))]])])
              _ eq_refl) as (d & Hd & F).
  injection Hd as <-.
  eapply Forall_impl; [|exact F].
  intros m (mcq & [Hin|[]] & _ & Hc). injection Hin as <-.
  apply (Hc 101%N); reflexivity.
Defined.

(** C7 (as stated) fails: an answer of two letters comes out as two letters,
    and an answer that is a number as its digits. *)
Lemma validate_study_data_answer_not_letter :
  @validate_study_data ascii_runtime
    (JDict [(py "mcqs", JList [JDict [(py "answer", JStr (py "ab"))];
                               JDict [(py "answer", JInt 5)]])])
  = OK {| notes := [];
          mcqs := [ {| question := py "Question";
                       options := [py "A) Option 1"; py "B) Option 2";
                                   py "C) Option 3"; py "D) Option 4"];
                       answer := py "AB" |};
                    {| question := py "Question";
                       options := [py "A) Option 1"; py "B) Option 2";
                                   py "C) Option 3"; py "D) Option 4"];
                       answer := py "5" |} ];
          flashcards := [] |}
  /\ ~ (forall (rt : PyRuntime) (data : json) (sd : StudyData),
           validate_study_data data = OK sd ->
           Forall (fun m => single_uppercase_letter (answer m) = true)
             (mcqs sd)).
Proof.
  split; [reflexivity|]. intros H.
  specialize (H ascii_runtime
                (JDict [(py "mcqs",
                         JList [JDict [(py "answer", JStr (py "ab"))]])])
                _ eq_refl).
  cbn [mcqs] in H. inversion H as [|m l Hm _]. discriminate Hm.
Qed.

Section SanitizerIdempotent.
Context {rt : PyRuntime}.

Lemma notes_kept (ns : list pystr) :
  Forall (fun n => n <> []) ns ->
  map py_str (filter truthy (map JStr ns)) = ns.
Proof.
  induction 1 as [|n ns Hn _ IH]; [reflexivity|].
  cbn [map filter truthy]. destruct n as [|c n]; [congruence|].
  cbn [length Nat.eqb negb map py_str]. now rewrite IH.
Qed.

Lemma validate_mcq_conformant (mcq : list (pystr * json)) (m : MCQ) :
  mcq_fields mcq m -> length (options m) = 4 -> is_uppercase (answer m) ->
  validate_mcq mcq = OK m.
Proof.
  intros (Hq & Ho & Ha) Hlen Hup.
  rewrite (validate_mcq_list mcq _ (dict_get_or_Some "options" _ _ _ Ho)).
  rewrite (dict_get_or_Some "question" _ _ _ Hq).
  rewrite (dict_get_or_Some "answer" _ _ _ Ha).
  cbn [py_str]. rewrite (str_upper_fixed _ Hup).
  rewrite length_map, Hlen. unfold pads. cbn [Nat.sub seq map].
  rewrite app_nil_r, firstn_all2 by (rewrite length_map; lia).
  rewrite map_map. cbn [py_str]. rewrite map_id. now destruct m.
Qed.

Lemma mcq_loop_conformant (items : list (list (pystr * json)))
    (ms acc : list MCQ) :
  Forall2 mcq_fields items ms ->
  Forall (fun m => length (options m) = 4 /\ is_uppercase (answer m)) ms ->
  mcq_loop (map JDict items) acc = OK (acc ++ ms).
Proof.
  intros H. revert acc.
  induction H as [|mcq m items ms Hf _ IH]; intros acc Hs.
  - cbn. now rewrite app_nil_r.
  - inversion Hs as [|? ? [Hl Hu] Hs']; subst.
    cbn [map mcq_loop]. rewrite (validate_mcq_conformant _ _ Hf Hl Hu).
    cbn [bind]. rewrite (IH _ Hs'), <- app_assoc. reflexivity.
Qed.

Lemma card_loop_conformant (cards : list (list (pystr * json)))
    (cs acc : list Flashcard) :
  Forall2 card_fields cards cs ->
  card_loop (map JDict cards) acc = acc ++ cs.
Proof.
  intros H. revert acc.
  induction H as [|card c cards cs [Hf Hb] _ IH]; intros acc.
  - cbn. now rewrite app_nil_r.
  - cbn [map card_loop]. rewrite IH, <- app_assoc. unfold validate_flashcard.
    rewrite (dict_get_or_Some "front" _ _ _ Hf).
    rewrite (dict_get_or_Some "back" _ _ _ Hb).
    cbn [py_str]. now destruct c.
Qed.

(** C9. On a mapping that already conforms to the schema (its notes
    non-empty strings; at most 5 mcq mappings, each with a string question, 4
    string options and an upper-case string answer; at most 3 flashcard
    mappings with string front and back), [validate_study_data] returns
    exactly those values. *)
Theorem validate_study_data_conformant (d : list (pystr * json))
    (sd : StudyData) (items cards : list (list (pystr * json))) :
  dict_get (py "notes") d = Some (JList (map JStr (notes sd))) ->
  Forall (fun n => n <> []) (notes sd) ->
  dict_get (py "mcqs") d = Some (JList (map JDict items)) ->
  Forall2 mcq_fields items (mcqs sd) ->
  length (mcqs sd) <= 5 ->
  Forall (fun m => length (options m) = 4 /\ is_uppercase (answer m))
    (mcqs sd) ->
  dict_get (py "flashcards") d = Some (JList (map JDict cards)) ->
  Forall2 card_fields cards (flashcards sd) ->
  length (flashcards sd) <= 3 ->
  validate_study_data (JDict d) = OK sd.
Proof.
  intros Hn Hne Hm Hmf Hml Hms Hc Hcf Hcl.
  rewrite validate_study_data_dict. unfold note_list, list_field.
  rewrite (dict_get_or_Some "notes" _ _ _ Hn).
  rewrite (dict_get_or_Some "mcqs" _ _ _ Hm).
  rewrite (dict_get_or_Some "flashcards" _ _ _ Hc).
  rewrite (notes_kept _ Hne).
  rewrite !firstn_all2.
  - rewrite (mcq_loop_conformant _ _ [] Hmf Hms). cbn [bind app].
    rewrite (card_loop_conformant _ _ [] Hcf). cbn [app]. now destruct sd.
  - rewrite length_map, (Forall2_length Hcf). exact Hcl.
  - rewrite length_map, (Forall2_length Hmf). exact Hml.
Qed.

End SanitizerIdempotent.

Lemma validate_study_data_conformant_witness :
  let sd :=
    {| notes := [py "Cells divide."];
       mcqs := [ {| question := py "What divides?";
                    options := [py "A) Cells"; py "B) Rocks"; py "C) Air";
                                py "D) Light"];
                    answer := py "A" |} ];
       flashcards := [ {| front := py "Mitosis";
                          back := py "Cell division" |} ] |} in
  @validate_study_data ascii_runtime
    (JDict
       [(py "notes", JList [JStr (py "Cells divide.")]);
        (py "mcqs",
         JList [JDict [(py "question", JStr (py "What divides?"));
                       (py "options",
                        JList [JStr (py "A) Cells"); JStr (py "B) Rocks");
                               JStr (py "C) Air"); JStr (py "D) Light")]);
                       (py "answer", JStr (py "A"))]]);
        (py "flashcards",
         JList [JDict [(py "front", JStr (py "Mitosis"));
                       (py "back", JStr (py "Cell division"))]])])
  = OK sd.
Proof.
  intros sd.
  apply (@validate_study_data_conformant ascii_runtime _ sd
           [[(py "question", JStr (py "What divides?"));
             (py "options",
              JList [JStr (py "A) Cells"); JStr (py "B) Rocks");
                     JStr (py "C) Air"); JStr (py "D) Light")]);
             (py "answer", JStr (py "A"))]]
           [[(py "front", JStr (py "Mitosis"));
             (py "back", JStr (py "Cell division"))]]).
  - reflexivity.
  - repeat constructor; discriminate.
  - reflexivity.
  - repeat constructor.
  - cbn; lia.
  - repeat constructor.
  - reflexivity.
  - repeat constructor.
  - cbn; lia.
Defined.

(* ================================================================== *)
(** * Further properties *)
(* ================================================================== *)

Lemma subseq_refl (s : pystr) : subseq s s.
Proof. induction s; constructor; assumption. Qed.

Lemma subseq_app_skip (p a b : pystr) : subseq a b -> subseq a (p ++ b).
Proof. intros H. induction p; [exact H|]. now apply subseq_skip. Qed.

Lemma subseq_app_l (a b : pystr) : subseq a (a ++ b).
Proof.
  induction a as [|c a IH]; cbn [app].
  - induction b; constructor; assumption.
  - now apply subseq_keep.
Qed.

Lemma subseq_trans (a b c : pystr) : subseq a b -> subseq b c -> subseq a c.
Proof.
  intros Hab Hbc. revert a Hab.
  induction Hbc as [|b x c _ IH|b x c _ IH]; intros a Hab.
  - exact Hab.
  - apply subseq_skip. now apply IH.
  - inversion Hab as [|a' y b' Ha|a' y b' Ha]; subst.
    + apply subseq_skip. now apply IH.
    + apply subseq_keep. now apply IH.
Qed.

Lemma subseq_length (a b : pystr) : subseq a b -> length a <= length b.
Proof. induction 1; cbn [length]; lia. Qed.

Lemma lstrip_subseq (s : pystr) : subseq (lstrip s) s.
Proof.
  destruct (drop_while_suffix isspace s) as [a Ha]. fold (lstrip s) in Ha.
  rewrite Ha at 2. apply subseq_app_skip, subseq_refl.
Qed.

Lemma rstrip_subseq (s : pystr) : subseq (rstrip s) s.
Proof.
  destruct (rstrip_prefix s) as [b Hb]. rewrite Hb at 2. apply subseq_app_l.
Qed.

Lemma re_sub_subseq (lit s : pystr) : lit <> [] -> subseq (re_sub lit s) s.
Proof.
  intros Hlit.
  apply (re_sub_ind lit (fun s out => subseq out s) Hlit).
  - constructor.
  - intros s0 r E IH. unfold fence_match in E.
    destruct (strip_prefix lit s0) as [rest|] eqn:Ep; [|discriminate].
    injection E as <-. apply strip_prefix_Some in Ep. subst s0.
    apply subseq_app_skip. eapply subseq_trans; [exact IH|].
    apply lstrip_subseq.
  - intros c s0 _ IH. now apply subseq_keep.
Qed.

Lemma hd_not_space_lstrip (s : pystr) : hd_not_space (lstrip s) = true.
Proof.
  unfold lstrip. induction s as [|c s IH]; cbn [drop_while]; [reflexivity|].
  destruct (isspace c) eqn:E; [exact IH|]. cbn [hd_not_space]. now rewrite E.
Qed.

Lemma lstrip_fixed (s : pystr) : hd_not_space s = true -> lstrip s = s.
Proof.
  destruct s as [|c s]; [reflexivity|]. cbn [hd_not_space].
  intros H. apply negb_true_iff in H. unfold lstrip. cbn [drop_while].
  now rewrite H.
Qed.

Lemma rstrip_fixed (s : pystr) : hd_not_space (rev s) = true -> rstrip s = s.
Proof.
  intros H. unfold rstrip. fold (lstrip (rev s)).
  rewrite (lstrip_fixed _ H). apply rev_involutive.
Qed.

Lemma hd_not_space_rev_rstrip (s : pystr) :
  hd_not_space (rev (rstrip s)) = true.
Proof.
  unfold rstrip. rewrite rev_involutive. apply hd_not_space_lstrip.
Qed.

Lemma hd_not_space_rstrip (s : pystr) :
  hd_not_space s = true -> hd_not_space (rstrip s) = true.
Proof.
  intros H. destruct (rstrip_prefix s) as [b Hb].
  destruct (rstrip s) as [|c r]; [reflexivity|].
  rewrite Hb in H. exact H.
Qed.

Lemma strip_trimmed (s : pystr) : trimmed (strip s) = true.
Proof.
  unfold trimmed, strip. apply andb_true_iff. split.
  - apply hd_not_space_rstrip, hd_not_space_lstrip.
  - apply hd_not_space_rev_rstrip.
Qed.

Lemma strip_fixed (s : pystr) : trimmed s = true -> strip s = s.
Proof.
  unfold trimmed, strip. intros H. apply andb_true_iff in H.
  destruct H as [H1 H2]. rewrite (lstrip_fixed _ H1). now apply rstrip_fixed.
Qed.

Lemma re_sub_absent (lit s : pystr) :
  lit <> [] -> contains lit s = false -> re_sub lit s = s.
Proof.
  intros Hlit. induction s as [|c s IH]; intros H.
  - now apply re_sub_nil.
  - rewrite contains_cons in H. apply orb_false_iff in H.
    destruct H as [Hs Hc].
    rewrite re_sub_keep; [now rewrite IH|exact Hlit|].
    now apply startswith_false_match.
Qed.

Lemma contains_fence_json (s : pystr) :
  contains fence s = false -> contains fence_json s = false.
Proof.
  induction s as [|c s IH].
  - reflexivity.
  - rewrite !contains_cons. intros H. apply orb_false_iff in H.
    destruct H as [Hs Hc]. rewrite (IH Hc), orb_false_r.
    destruct (startswith fence_json (c :: s)) eqn:E; [|reflexivity].
    apply startswith_true in E. destruct E as [r Hr].
    unfold fence_json in Hr. rewrite <- app_assoc in Hr.
    rewrite Hr, startswith_app in Hs. discriminate.
Qed.

Lemma clean_no_fence (s : pystr) :
  contains fence (clean_json_response s) = false.
Proof.
  unfold clean_json_response. apply contains_strip, re_sub_fence_clean.
Qed.

(** X1. Cleaning is idempotent: a cleaned text is left as it is by a second
    cleaning. *)
Theorem clean_json_response_idempotent (response_text : pystr) :
  clean_json_response (clean_json_response response_text)
  = clean_json_response response_text.
Proof.
  pose proof (clean_no_fence response_text) as H.
  set (t := clean_json_response response_text) in *.
  unfold clean_json_response at 1.
  rewrite (re_sub_absent fence_json t fence_json_nonempty
             (contains_fence_json _ H)).
  rewrite (re_sub_absent fence t fence_nonempty H).
  apply strip_fixed. unfold t, clean_json_response. apply strip_trimmed.
Qed.

(** X2. A cleaned text has no white space at either end. *)
Theorem clean_json_response_trimmed (response_text : pystr) :
  trimmed (clean_json_response response_text) = true.
Proof. unfold clean_json_response. apply strip_trimmed. Qed.

(** X3. A text without any backtick is only stripped. *)
Theorem clean_json_response_plain (response_text : pystr) :
  no_tick response_text = true ->
  clean_json_response response_text = strip response_text.
Proof.
  intros H. unfold clean_json_response.
  rewrite <- (app_nil_r response_text) at 1.
  rewrite (re_sub_json_skip _ _ H), re_sub_nil by apply fence_json_nonempty.
  rewrite (re_sub_fence_skip _ _ H), re_sub_nil by apply fence_nonempty.
  now rewrite app_nil_r.
Qed.

(** X4. Cleaning only deletes characters: the cleaned text is the text with
    some characters left out, in the same order, so it is no longer. *)
Theorem clean_json_response_deletes_only (response_text : pystr) :
  subseq (clean_json_response response_text) response_text
  /\ length (clean_json_response response_text) <= length response_text.
Proof.
  assert (H : subseq (clean_json_response response_text) response_text).
  { unfold clean_json_response, strip.
    eapply subseq_trans; [apply rstrip_subseq|].
    eapply subseq_trans; [apply lstrip_subseq|].
    eapply subseq_trans; [apply re_sub_subseq, fence_nonempty|].
    apply re_sub_subseq, fence_json_nonempty. }
  split; [exact H|now apply subseq_length].
Qed.

Lemma clean_json_response_plain_witness :
  clean_json_response (py "  {}" ++ newline) = py "{}".
Proof. exact (clean_json_response_plain (py "  {}" ++ newline) eq_refl). Defined.

Section SanitizerMore.
Context {rt : PyRuntime}.

Lemma fix_options_accepted (v : json) :
  options_accepted v = true ->
  exists v' opts, fix_options v = OK v' /\ py_iter v' = OK opts.
Proof.
  destruct v as [| | | |s|l|d]; try discriminate; cbn [options_accepted].
  - intros H. apply Nat.leb_le in H. unfold fix_options. cbn [py_len bind].
    destruct (Nat.eqb_spec (length s) 4) as [E|E]; cbn [negb].
    + eexists _, _. split; reflexivity.
    + cbn [pad_while py_len bind].
      destruct (Nat.ltb_spec (length s) 4) as [Hlt|Hge]; [lia|].
      cbn [bind py_slice_to]. eexists _, _. split; reflexivity.
  - intros _. rewrite fix_options_list. eexists _, _. split; reflexivity.
  - intros H. apply Nat.eqb_eq in H. unfold fix_options. cbn [py_len bind].
    rewrite H. cbn [Nat.eqb negb]. eexists _, _. split; reflexivity.
Qed.

Lemma fix_options_refused (v : json) :
  options_accepted v = false ->
  exists e, fix_options v = Raise e /\ is_attribute_or_type_error e = true.
Proof.
  destruct v as [| | | |s|l|d]; cbn [options_accepted]; intros H;
    try (eexists; split; reflexivity); try discriminate.
  - apply Nat.leb_gt in H. unfold fix_options. cbn [py_len bind].
    destruct (Nat.eqb_spec (length s) 4) as [E|E]; [lia|]. cbn [negb].
    cbn [pad_while py_len bind].
    destruct (Nat.ltb_spec (length s) 4) as [Hlt|Hge]; [|lia].
    cbn [py_append bind]. eexists; split; reflexivity.
  - apply Nat.eqb_neq in H. unfold fix_options. cbn [py_len bind].
    destruct (Nat.eqb_spec (length d) 4) as [E|E]; [lia|]. cbn [negb].
    cbn [pad_while py_len bind].
    destruct (Nat.ltb_spec (length d) 4) as [Hlt|Hge];
      cbn [py_append bind py_slice_to]; eexists; split; reflexivity.
Qed.

Lemma validate_mcq_accepted (mcq : list (pystr * json)) :
  options_accepted (dict_get_or "options" (JList []) mcq) = true ->
  exists m, validate_mcq mcq = OK m.
Proof.
  intros H. destruct (fix_options_accepted _ H) as (v' & opts & Hf & Hi).
  unfold validate_mcq. rewrite Hf. cbn [bind]. rewrite Hi. cbn [bind]. eauto.
Qed.

Lemma validate_mcq_refused (mcq : list (pystr * json)) :
  options_accepted (dict_get_or "options" (JList []) mcq) = false ->
  exists e, validate_mcq mcq = Raise e /\ is_attribute_or_type_error e = true.
Proof.
  intros H. destruct (fix_options_refused _ H) as (e & Hf & He).
  exists e. unfold validate_mcq. rewrite Hf. now split.
Qed.

Lemma mcq_loop_accepted (items : list json) (acc : list MCQ) :
  forallb item_accepted items = true -> exists out, mcq_loop items acc = OK out.
Proof.
  revert acc. induction items as [|item items IH]; intros acc H.
  - now exists acc.
  - cbn [forallb] in H. apply andb_true_iff in H. destruct H as [Hi H].
    destruct item as [| | | | | |mcq]; cbn [mcq_loop]; try (now apply IH).
    destruct (validate_mcq_accepted _ Hi) as [m ->]. cbn [bind]. now apply IH.
Qed.

Lemma mcq_loop_first_refused (pre : list json) (bad : list (pystr * json))
    (post : list json) (acc : list MCQ) (e : exn) :
  forallb item_accepted pre = true ->
  validate_mcq bad = Raise e ->
  mcq_loop (pre ++ JDict bad :: post) acc = Raise e.
Proof.
  intros Hpre Hbad. revert acc.
  induction pre as [|item pre IH]; intros acc; cbn [app].
  - cbn [mcq_loop]. now rewrite Hbad.
  - cbn [forallb] in Hpre. apply andb_true_iff in Hpre.
    destruct Hpre as [Hi Hpre]. specialize (IH Hpre).
    destruct item as [| | | | | |mcq]; cbn [mcq_loop]; try apply IH.
    destruct (validate_mcq_accepted _ Hi) as [m ->]. cbn [bind]. apply IH.
Qed.

Lemma forallb_false_split (items : list json) :
  forallb item_accepted items = false ->
  exists pre bad post,
    items = pre ++ JDict bad :: post
    /\ forallb item_accepted pre = true
    /\ options_accepted (dict_get_or "options" (JList []) bad) = false.
Proof.
  induction items as [|item items IH]; [discriminate|].
  cbn [forallb]. destruct (item_accepted item) eqn:E; cbn [andb].
  - intros H. destruct (IH H) as (pre & bad & post & -> & Hp & Hb).
    exists (item :: pre), bad, post. cbn [forallb]. rewrite E, Hp. now repeat split.
  - intros _. destruct item as [| | | | | |mcq]; try discriminate.
    exists [], mcq, items. now repeat split.
Qed.

Lemma mcq_loop_Forall2 (items : list json) (acc out : list MCQ) :
  mcq_loop items acc = OK out ->
  exists new,
    out = acc ++ new
    /\ Forall2 (fun mcq m => validate_mcq mcq = OK m) (dict_items items) new.
Proof.
  revert acc. induction items as [|item items IH]; intros acc H.
  - cbn in H. apply OK_inj in H. subst. exists []. rewrite app_nil_r.
    split; [reflexivity|constructor].
  - destruct item as [| | | | | |mcq]; cbn [mcq_loop dict_items] in *;
      try (now apply IH).
    destruct (validate_mcq mcq) as [m|e] eqn:Ev; [|discriminate].
    cbn [bind] in H. destruct (IH _ H) as (new & E & F).
    exists (m :: new). rewrite <- app_assoc in E. split; [exact E|].
    now constructor.
Qed.

Lemma card_loop_map (items : list json) (acc : list Flashcard) :
  card_loop items acc = acc ++ map validate_flashcard (dict_items items).
Proof.
  revert acc. induction items as [|item items IH]; intros acc.
  - cbn. now rewrite app_nil_r.
  - destruct item as [| | | | | |card]; cbn [card_loop dict_items map];
      try apply IH.
    rewrite IH, <- app_assoc. reflexivity.
Qed.

(** X5. When [validate_study_data] returns, its mcqs are, one for one and
    in order, the validated mappings among the first five [mcqs] items, and
    its flashcards the validated mappings among the first three [flashcards]
    items: the cut to five and three comes before the items that are not
    mappings are dropped. *)
Theorem validate_study_data_items (data : json) (sd : StudyData) :
  validate_study_data data = OK sd ->
  exists d,
    data = JDict d
    /\ Forall2 (fun mcq m => validate_mcq mcq = OK m)
         (dict_items (firstn 5 (list_field "mcqs" d))) (mcqs sd)
    /\ flashcards sd
       = map validate_flashcard
           (dict_items (firstn 3 (list_field "flashcards" d))).
Proof.
  intros H. apply validate_study_data_inv in H.
  destruct H as (d & out & -> & Hloop & ->). exists d.
  split; [reflexivity|]. cbn [mcqs flashcards].
  apply mcq_loop_Forall2 in Hloop. destruct Hloop as (new & -> & F).
  split; [exact F|]. now rewrite card_loop_map.
Qed.

(** X6. [validate_study_data] returns exactly on the mappings in which every
    mapping among the first five [mcqs] items has options that are absent, a
    list, a string of four characters or more, or a mapping of four keys. *)
Theorem validate_study_data_returns_iff (data : json) :
  (exists sd, validate_study_data data = OK sd)
  <-> exists d,
        data = JDict d
        /\ forallb item_accepted (firstn 5 (list_field "mcqs" d)) = true.
Proof.
  split.
  - intros [sd H]. apply validate_study_data_inv in H.
    destruct H as (d & out & -> & Hloop & _). exists d. split; [reflexivity|].
    destruct (forallb item_accepted (firstn 5 (list_field "mcqs" d))) eqn:E;
      [reflexivity|].
    apply forallb_false_split in E.
    destruct E as (pre & bad & post & E & Hp & Hb). rewrite E in Hloop.
    destruct (validate_mcq_refused _ Hb) as (e & He & _).
    rewrite (mcq_loop_first_refused _ _ _ _ _ Hp He) in Hloop. discriminate.
  - intros (d & -> & H). rewrite validate_study_data_dict.
    destruct (mcq_loop_accepted _ [] H) as [out ->]. cbn [bind]. eauto.
Qed.

(** X7. The first mapping among the first five [mcqs] items whose options
    are refused decides the outcome: its exception is raised, and nothing of
    the other fields is returned. *)
Theorem validate_study_data_first_refused (d : list (pystr * json))
    (pre : list json) (bad : list (pystr * json)) (post : list json)
    (e : exn) :
  firstn 5 (list_field "mcqs" d) = pre ++ JDict bad :: post ->
  forallb item_accepted pre = true ->
  validate_mcq bad = Raise e ->
  validate_study_data (JDict d) = Raise e.
Proof.
  intros E Hp Hb. rewrite validate_study_data_dict, E.
  now rewrite (mcq_loop_first_refused _ _ _ _ _ Hp Hb).
Qed.

End SanitizerMore.

(** A number, a mapping with one option and a mapping without options among
    the [mcqs]; a string and a mapping among the [flashcards]. *)
Lemma validate_study_data_items_witness :
  exists sd,
    @validate_study_data ascii_runtime
      (JDict [(py "mcqs",
               JList [JInt 7;
                      JDict [(py "options", JList [JStr (py "x")])];
                      JDict []]);
              (py "flashcards", JList [JStr (py "f"); JDict []])])
    = OK sd
    /\ length (mcqs sd) = 2
    /\ length (flashcards sd) = 1.
Proof.
  eexists. split; [reflexivity|].
  destruct (@validate_study_data_items ascii_runtime
              (JDict [(py "mcqs",
                       JList [JInt 7;
                              JDict [(py "options", JList [JStr (py "x")])];
                              JDict []]);
                      (py "flashcards", JList [JStr (py "f"); JDict []])])
              _ eq_refl) as (d & Hd & F & Hc).
  injection Hd as <-. split; [|reflexivity].
  rewrite <- (Forall2_length F). reflexivity.
Defined.

Lemma validate_study_data_returns_iff_witness :
  exists sd,
    @validate_study_data ascii_runtime
      (JDict [(py "mcqs", JList [JDict [(py "options", JStr (py "abcd"))]])])
    = OK sd.
Proof.
  apply (proj2 (@validate_study_data_returns_iff ascii_runtime _)).
  eexists. split; reflexivity.
Defined.

Lemma validate_study_data_first_refused_witness :
  @validate_study_data ascii_runtime
    (JDict [(py "notes", JList [JStr (py "kept nowhere")]);
            (py "mcqs",
             JList [JDict []; JDict [(py "options", JInt 5)]; JDict []])])
  = Raise (TypeError (py "object of type 'int' has no len()")).
Proof.
  apply (@validate_study_data_first_refused ascii_runtime _
           [JDict []] [(py "options", JInt 5)] [JDict []]); reflexivity.
Defined.


Section SanitizerEdges.
Context {rt : PyRuntime}.

(** X8. Options that are a string are taken character by character: a
    string of four characters or more gives its first four characters as the
    four options; a shorter one raises [AttributeError], as a string cannot
    be appended to. *)
Theorem validate_mcq_string_options (mcq : list (pystr * json)) (s : pystr) :
  dict_get (py "options") mcq = Some (JStr s) ->
  (4 <= length s ->
   exists m, validate_mcq mcq = OK m
             /\ options m = map (fun c => [c]) (firstn 4 s))
  /\ (length s < 4 ->
      validate_mcq mcq = Raise (no_attribute (JStr s) "append")).
Proof.
  intros H. pose proof (dict_get_or_Some "options" (JList []) _ _ H) as E.
  unfold validate_mcq. rewrite E. unfold fix_options. cbn [py_len bind].
  split; intros Hl.
  - destruct (Nat.eqb_spec (length s) 4) as [E4|E4]; cbn [negb bind py_iter].
    + eexists. split; [reflexivity|]. cbn [options].
      rewrite map_map. cbn [py_str]. rewrite <- E4. now rewrite firstn_all.
    + cbn [pad_while py_len bind].
      destruct (Nat.ltb_spec (length s) 4) as [Hlt|Hge]; [lia|].
      cbn [bind py_slice_to py_iter]. eexists. split; [reflexivity|].
      cbn [options]. now rewrite map_map.
  - destruct (Nat.eqb_spec (length s) 4) as [E4|E4]; [lia|]. cbn [negb].
    cbn [pad_while py_len bind].
    destruct (Nat.ltb_spec (length s) 4) as [Hlt|Hge]; [|lia]. reflexivity.
Qed.

(** X9. Options that are a mapping of exactly four keys give the four keys
    as the options; a mapping of any other size raises. *)
Theorem validate_mcq_dict_options (mcq o : list (pystr * json)) :
  dict_get (py "options") mcq = Some (JDict o) ->
  (length o = 4 ->
   exists m, validate_mcq mcq = OK m /\ options m = map fst o)
  /\ (length o <> 4 -> exists e, validate_mcq mcq = Raise e).
Proof.
  intros H. pose proof (dict_get_or_Some "options" (JList []) _ _ H) as E.
  unfold validate_mcq. rewrite E. unfold fix_options. cbn [py_len bind].
  split; intros Hl.
  - rewrite Hl. cbn [Nat.eqb negb bind py_iter]. eexists.
    split; [reflexivity|]. cbn [options]. now rewrite map_map.
  - destruct (Nat.eqb_spec (length o) 4) as [E4|E4]; [lia|]. cbn [negb].
    cbn [pad_while py_len bind].
    destruct (Nat.ltb_spec (length o) 4) as [Hlt|Hge];
      cbn [py_append py_slice_to bind]; eexists; reflexivity.
Qed.

(** X10. The result depends on the [notes] field, the first five [mcqs]
    items and the first three [flashcards] items only: further items and
    other keys are not looked at. *)
Theorem validate_study_data_reads (d d' : list (pystr * json)) :
  dict_get (py "notes") d = dict_get (py "notes") d' ->
  firstn 5 (list_field "mcqs" d) = firstn 5 (list_field "mcqs" d') ->
  firstn 3 (list_field "flashcards" d) = firstn 3 (list_field "flashcards" d') ->
  validate_study_data (JDict d) = validate_study_data (JDict d').
Proof.
  intros Hn Hm Hc. rewrite !validate_study_data_dict, Hm, Hc.
  unfold note_list, dict_get_or. now rewrite Hn.
Qed.

Lemma filter_truthy_strings (l : list pystr) :
  map py_str (filter truthy (map JStr l))
  = filter (fun s => negb (Nat.eqb (length s) 0)) l.
Proof.
  induction l as [|s l IH]; [reflexivity|].
  cbn [map filter truthy]. destruct (negb (Nat.eqb (length s) 0)).
  - cbn [map py_str]. now rewrite IH.
  - exact IH.
Qed.

(** X11. When [notes] is a list of strings, the notes returned are its
    non-empty strings, in order. *)
Theorem validate_study_data_string_notes (d : list (pystr * json))
    (l : list pystr) (sd : StudyData) :
  dict_get (py "notes") d = Some (JList (map JStr l)) ->
  validate_study_data (JDict d) = OK sd ->
  notes sd = filter (fun s => negb (Nat.eqb (length s) 0)) l.
Proof.
  intros Hn H. apply validate_study_data_inv in H.
  destruct H as (d' & out & Hd & _ & ->). injection Hd as <-.
  cbn [notes]. unfold note_list.
  rewrite (dict_get_or_Some "notes" _ _ _ Hn). apply filter_truthy_strings.
Qed.

(** X12. With no [notes] field there are no notes; a [notes] value that is
    not a list becomes one note, its string form: [None] for [null], [True]
    or [False] for a boolean, the string itself for a string, unless it is
    empty, in which case there are no notes. *)
Theorem validate_study_data_other_notes (d : list (pystr * json))
    (sd : StudyData) :
  validate_study_data (JDict d) = OK sd ->
  (dict_get (py "notes") d = None -> notes sd = [])
  /\ (dict_get (py "notes") d = Some JNull -> notes sd = [py "None"])
  /\ (forall b, dict_get (py "notes") d = Some (JBool b) ->
                notes sd = [py (if b then "True" else "False")])
  /\ (forall s, dict_get (py "notes") d = Some (JStr s) ->
                notes sd = match s with [] => [] | _ => [s] end).
Proof.
  intros H. apply validate_study_data_inv in H.
  destruct H as (d' & out & Hd & _ & ->). injection Hd as <-.
  cbn [notes]. unfold note_list. repeat split.
  - intros Hn. now rewrite (dict_get_or_None "notes" _ _ Hn).
  - intros Hn. now rewrite (dict_get_or_Some "notes" _ _ _ Hn).
  - intros b Hn. rewrite (dict_get_or_Some "notes" _ _ _ Hn). now destruct b.
  - intros s Hn. rewrite (dict_get_or_Some "notes" _ _ _ Hn). now destruct s.
Qed.

Lemma to_upper_ascii (c : N) :
  is_ascii c = true ->
  exists c', to_upper c = [c'] /\ is_ascii c' = true
             /\ is_ascii_lower c' = false.
Proof.
  unfold is_ascii, to_upper, is_ascii_lower. intros H. rewrite H.
  apply N.ltb_lt in H.
  destruct (N.leb_spec 97 c) as [H1|H1]; cbn [andb].
  - destruct (N.leb_spec c 122) as [H2|H2].
    + exists (c - 32)%N. split; [reflexivity|]. split.
      * apply N.ltb_lt. lia.
      * apply andb_false_iff. left. apply N.leb_gt. lia.
    + exists c. split; [reflexivity|]. split.
      * apply N.ltb_lt. lia.
      * apply andb_false_iff. right. apply N.leb_gt. lia.
  - exists c. split; [reflexivity|]. split.
    + apply N.ltb_lt. lia.
    + apply andb_false_iff. left. apply N.leb_gt. lia.
Qed.

Lemma str_upper_ascii (a : pystr) :
  forallb is_ascii a = true ->
  length (str_upper a) = length a
  /\ forallb is_ascii (str_upper a) = true
  /\ forallb (fun c => negb (is_ascii_lower c)) (str_upper a) = true.
Proof.
  unfold str_upper. induction a as [|c a IH]; cbn [forallb flat_map].
  - now repeat split.
  - intros H. apply andb_true_iff in H. destruct H as [Hc Ha].
    destruct (IH Ha) as (IH1 & IH2 & IH3).
    destruct (to_upper_ascii _ Hc) as (c' & -> & Hc1 & Hc2).
    cbn [app length forallb]. rewrite IH1, IH2, IH3, Hc1, Hc2. now repeat split.
Qed.

Lemma str_upper_no_lower (a : pystr) :
  forallb is_ascii a = true ->
  forallb (fun c => negb (is_ascii_lower c)) a = true ->
  str_upper a = a.
Proof.
  unfold str_upper. induction a as [|c a IH]; cbn [forallb flat_map];
    [reflexivity|].
  intros H1 H2. apply andb_true_iff in H1, H2.
  destruct H1 as [Hc Ha], H2 as [Hl Hb]. rewrite (IH Ha Hb).
  unfold to_upper. unfold is_ascii in Hc. rewrite Hc.
  unfold is_ascii_lower in Hl. apply negb_true_iff in Hl. now rewrite Hl.
Qed.

(** X13. When the answer of an accepted mapping is a string of ASCII
    characters, the answer returned has the same length, holds no lower-case
    ASCII letter and is left as it is by a further upper-casing. *)
Theorem validate_mcq_ascii_answer (mcq : list (pystr * json)) (a : pystr)
    (m : MCQ) :
  validate_mcq mcq = OK m ->
  dict_get (py "answer") mcq = Some (JStr a) ->
  forallb is_ascii a = true ->
  length (answer m) = length a
  /\ forallb (fun c => negb (is_ascii_lower c)) (answer m) = true
  /\ str_upper (answer m) = answer m.
Proof.
  intros H Ha Hascii. apply validate_mcq_inv in H.
  destruct H as (v & opts & _ & _ & ->). cbn [answer].
  rewrite (dict_get_or_Some "answer" _ _ _ Ha). cbn [py_str].
  destruct (str_upper_ascii _ Hascii) as (H1 & H2 & H3).
  repeat split; [exact H1|exact H3|now apply str_upper_no_lower].
Qed.

End SanitizerEdges.

Lemma validate_mcq_string_options_witness :
  exists m,
    @validate_mcq ascii_runtime [(py "options", JStr (py "abcde"))] = OK m
    /\ options m = [py "a"; py "b"; py "c"; py "d"].
Proof.
  apply (proj1 (@validate_mcq_string_options ascii_runtime
                  [(py "options", JStr (py "abcde"))] (py "abcde") eq_refl)).
  cbn. lia.
Defined.

Lemma validate_mcq_dict_options_witness :
  exists m,
    @validate_mcq ascii_runtime
      [(py "options",
        JDict [(py "A", JInt 1); (py "B", JInt 2); (py "C", JInt 3);
               (py "D", JInt 4)])]
    = OK m
    /\ options m = [py "A"; py "B"; py "C"; py "D"].
Proof.
  apply (proj1 (@validate_mcq_dict_options ascii_runtime
                  [(py "options",
                    JDict [(py "A", JInt 1); (py "B", JInt 2);
                           (py "C", JInt 3); (py "D", JInt 4)])]
                  [(py "A", JInt 1); (py "B", JInt 2); (py "C", JInt 3);
                   (py "D", JInt 4)] eq_refl)).
  reflexivity.
Defined.

(** A sixth item with refused options and another key change nothing. *)
Lemma validate_study_data_reads_witness :
  @validate_study_data ascii_runtime
    (JDict [(py "mcqs",
             JList [JDict []; JDict []; JDict []; JDict []; JDict [];
                    JDict [(py "options", JInt 5)]]);
            (py "title", JStr (py "Cells"))])
  = @validate_study_data ascii_runtime
      (JDict [(py "mcqs",
               JList [JDict []; JDict []; JDict []; JDict []; JDict []])]).
Proof.
  apply (@validate_study_data_reads ascii_runtime); reflexivity.
Defined.

Lemma validate_study_data_string_notes_witness :
  exists sd,
    @validate_study_data ascii_runtime
      (JDict [(py "notes", JList [JStr (py "a"); JStr []; JStr (py "b")])])
    = OK sd
    /\ notes sd = [py "a"; py "b"].
Proof.
  eexists. split; [reflexivity|].
  apply (@validate_study_data_string_notes ascii_runtime
           [(py "notes", JList [JStr (py "a"); JStr []; JStr (py "b")])]
           [py "a"; []; py "b"]); reflexivity.
Defined.

Lemma validate_study_data_other_notes_witness :
  exists sd,
    @validate_study_data ascii_runtime (JDict [(py "notes", JNull)]) = OK sd
    /\ notes sd = [py "None"].
Proof.
  eexists. split; [reflexivity|].
  apply (@validate_study_data_other_notes ascii_runtime
           [(py "notes", JNull)] _ eq_refl).
  reflexivity.
Defined.

Lemma validate_mcq_ascii_answer_witness :
  exists m,
    @validate_mcq ascii_runtime [(py "answer", JStr (py "b2"))] = OK m
    /\ length (answer m) = 2
    /\ forallb (fun c => negb (is_ascii_lower c)) (answer m) = true
    /\ @str_upper ascii_runtime (answer m) = answer m.
Proof.
  eexists. split; [reflexivity|].
  apply (@validate_mcq_ascii_answer ascii_runtime
           [(py "answer", JStr (py "b2"))] (py "b2")); reflexivity.
Defined.

(** X21. The prompt determines the topic: two topics with the same prompt
    are the same. *)
Theorem STUDY_GENERATION_PROMPT_format_injective (topic1 topic2 : pystr) :
  STUDY_GENERATION_PROMPT_format topic1 = STUDY_GENERATION_PROMPT_format topic2
  -> topic1 = topic2.
Proof.
  unfold STUDY_GENERATION_PROMPT_format. intros H.
  apply app_inv_head in H. now apply app_inv_tail in H.
Qed.

Lemma STUDY_GENERATION_PROMPT_format_injective_witness :
  py "Cells" = py "Cells".
Proof.
  exact (STUDY_GENERATION_PROMPT_format_injective (py "Cells") (py "Cells")
           eq_refl).
Defined.
